(** * CRUD-Ecommerce: a shallow embedding of the REST handlers

    The development follows the Express routers of the repository
    (routes/userRoutes.js, routes/productRoutes.js, routes/adminRoutes.js,
    routes/sellerRoutes.js) and the middleware of middleware/auth.js.  A
    handler is a function from the request and the database state to a
    response and a new state; the three Mongoose collections are the
    three fields of [State].  Requests are served one after the other.

    Numbers: prices, quantities and totals are JavaScript numbers, that
    is IEEE 754 doubles, in the source.  The embedding covers the
    integral ones (amounts in the smallest currency unit), written as
    integers ([Z]); the arithmetic of the purchase handler rounds its
    results to the nearest double, as JavaScript does ([js_round]).  A
    price or quantity with a fractional part is outside the embedding.
    The regular expressions of the product search are MongoDB's: the
    engine is behind an interface, as the password and token libraries
    are.  Strings are byte strings.  Identifiers in requests are
    well-formed ObjectIds, and the fields a handler reads from a body
    are present, but for the product list of a purchase, which may be
    missing. *)

From Stdlib Require Import ZArith Ascii String.
From stdpp Require Import base strings gmap list.

(** ** Data model *)

(** Mongo document identifiers are opaque strings. *)
Abbreviation ObjectId := string (only parsing).

Module Role.
Inductive t := user | seller | admin.

#[global] Instance eq_dec : EqDecision t.
Proof. solve_decision. Defined.

(** [['admin', 'user', 'seller'].includes(role)] *)
Definition of_string (s : string) : option t :=
  if String.eqb s "admin" then Some admin
  else if String.eqb s "user" then Some user
  else if String.eqb s "seller" then Some seller
  else None.
End Role.

Module Status.
Inductive t := pending | confirmed | shipped | delivered | cancelled.

#[global] Instance eq_dec : EqDecision t.
Proof. solve_decision. Defined.

(** [['pending', 'confirmed', 'shipped', 'delivered', 'cancelled'].includes(status)] *)
Definition of_string (s : string) : option t :=
  if String.eqb s "pending" then Some pending
  else if String.eqb s "confirmed" then Some confirmed
  else if String.eqb s "shipped" then Some shipped
  else if String.eqb s "delivered" then Some delivered
  else if String.eqb s "cancelled" then Some cancelled
  else None.
End Status.

Module User.
Record t := mk {
  _id : ObjectId;
  name : string;
  email : string;
  password : string;
  role : Role.t
}.

Definition set_profile (n e : string) (u : t) : t :=
  mk (_id u) n e (password u) (role u).
Definition set_password (p : string) (u : t) : t :=
  mk (_id u) (name u) (email u) p (role u).
Definition set_role (r : Role.t) (u : t) : t :=
  mk (_id u) (name u) (email u) (password u) r.

(** Modelled from the spec: the User schema (models/user.js) is not
    among the sources.  Following the spec, in which a registration is
    refused only for an email already in use, every account document
    passes the validation [save()] runs. *)
Definition validate (u : t) : bool := true.
End User.

Module Product.
Record t := mk {
  name : string;
  price : Z;
  description : string;
  color : string;
  quantity : Z
}.

Definition set_quantity (q : Z) (p : t) : t :=
  mk (name p) (price p) (description p) (color p) q.
(** [{ $inc: { quantity: n } }] *)
Definition inc_quantity (n : Z) (p : t) : t :=
  set_quantity (quantity p + n) p.

(** Modelled from the spec: the Product schema (models/product.js) is
    not among the sources.  Following the spec, in which creating a
    product has no failure, every product document passes the validation
    [save()] runs. *)
Definition validate (p : t) : bool := true.
End Product.

(** The body of a product update: any subset of the product's fields. *)
Module ProductUpdate.
Record t := mk {
  name : option string;
  price : option Z;
  description : option string;
  color : option string;
  quantity : option Z
}.

Definition apply (b : t) (p : Product.t) : Product.t :=
  Product.mk (default (Product.name p) (name b))
             (default (Product.price p) (price b))
             (default (Product.description p) (description b))
             (default (Product.color p) (color b))
             (default (Product.quantity p) (quantity b)).
End ProductUpdate.

(** One element of [req.body.products] in a purchase. *)
Module Item.
Record t := mk { productId : ObjectId; quantity : Z }.
End Item.

(** One element of [order.products]: a snapshot of the product. *)
Module OrderItem.
Record t := mk {
  productId : ObjectId;
  name : string;
  price : Z;
  quantity : Z
}.
End OrderItem.

Module Order.
Record t := mk {
  userId : ObjectId;
  products : list OrderItem.t;
  totalAmount : Z;
  shippingAddress : string;
  status : Status.t
}.

Definition set_status (s : Status.t) (o : t) : t :=
  mk (userId o) (products o) (totalAmount o) (shippingAddress o) s.

(** Modelled from the spec: the Order schema (models/order.js) is not
    among the sources.  [new Order({ userId, products, totalAmount,
    shippingAddress })] takes the four fields the purchase handler
    passes and, as the spec says, has status pending (the schema's
    default); the creation timestamp is left out. *)
Definition new (userId : ObjectId) (products : list OrderItem.t)
    (totalAmount : Z) (shippingAddress : string) : t :=
  mk userId products totalAmount shippingAddress Status.pending.

(** Modelled from the spec: the Order schema (models/order.js) is not
    among the sources.  Following the spec, in which persisting an order
    has no failure, every order document passes the validation [save()]
    runs. *)
Definition validate (o : t) : bool := true.
End Order.

(** The database: the User collection in its natural (insertion) order,
    the Product and Order collections keyed by [_id]. *)
Record State := mkState {
  db_users : list User.t;
  db_products : gmap string Product.t;
  db_orders : gmap string Order.t
}.

Definition with_users (us : list User.t) (st : State) : State :=
  mkState us (db_products st) (db_orders st).
Definition with_products (ps : gmap string Product.t) (st : State) : State :=
  mkState (db_users st) ps (db_orders st).
Definition with_orders (os : gmap string Order.t) (st : State) : State :=
  mkState (db_users st) (db_products st) os.

(** ** Requests and responses *)

Inductive Payload :=
| NoPayload
| Account (name email : string) (role : Role.t)
| Session (token : string) (name email : string) (role : Role.t)
| OrderDoc (id : ObjectId) (order : Order.t)
| ProductDoc (id : ObjectId) (product : Product.t)
| ProductList (count : nat) (products : list (ObjectId * Product.t)).

(** [res.status(statusCode).send({ message, ... })]; the [error] text
    that a [catch] block adds to its message is left out. *)
Record Response := send {
  statusCode : nat;
  message : option string;
  payload : Payload
}.

Definition reply (code : nat) (msg : string) : Response :=
  send code (Some msg) NoPayload.

(** A request: the Authorization header, the [:id] path parameter, the
    JSON body, and the salt bcrypt draws if the handler hashes a
    password. *)
Record Req (B : Type) := mkReq {
  authorization : option string;
  params_id : string;
  body : B;
  salt : string
}.
Arguments mkReq {B} _ _ _ _.
Arguments authorization {B} _.
Arguments params_id {B} _.
Arguments body {B} _.
Arguments salt {B} _.

Record Credentials := mkCredentials {
  cr_name : string;
  cr_email : string;
  cr_password : string
}.

Record LoginBody := mkLogin { lg_email : string; lg_password : string }.

Record ProfileBody := mkProfile { pf_name : string; pf_email : string }.

Record PasswordBody := mkPasswords {
  currentPassword : string;
  newPassword : string
}.

Record BuyBody := mkBuy {
  products : option (list Item.t);
  shippingAddress : string
}.

(** [req.query] of the product search; a parameter that is absent or
    empty is [None] for the prices, which are given as the numbers
    [Number(...)] yields. *)
Record SearchQuery := mkQuery {
  q_name : option string;
  q_minPrice : option Z;
  q_maxPrice : option Z;
  q_color : option string
}.

(** ** External primitives

    bcryptjs and jsonwebtoken are libraries the handlers call; their
    functions are the methods of an interface. *)
Class Primitives := {
  (** [bcrypt.hash(password, rounds)] with the salt it drew *)
  bcrypt_hash : string → nat → string → string;
  (** [bcrypt.compare(password, hash)] *)
  bcrypt_compare : string → string → bool;
  (** [jwt.sign({ userId, role }, secret, { expiresIn: '24h' })] *)
  jwt_sign : ObjectId → Role.t → string;
  (** [jwt.verify(token, secret)]; [None] when it throws *)
  jwt_verify : string → option (ObjectId * Role.t)
}.

(** MongoDB's [$regex] operator with [$options: 'i']: the matcher of a
    pattern, or [None] when the text is not a regular expression, in
    which case the query throws. *)
Class RegexEngine := {
  regex_i : string → option (string → bool)
}.

(** ** Numbers

    The arithmetic of JavaScript on integral doubles below 2^1024 in
    magnitude: the exact result, rounded to the nearest double, to the
    one with the even significand on a tie.  Every integer up to 2^53 in
    magnitude is a double; above, a double has 53 significant bits. *)
Definition js_round (z : Z) : Z :=
  let a := Z.abs z in
  if (a <=? 2 ^ 53)%Z then z
  else
    let ulp := (2 ^ (Z.log2 a - 52))%Z in
    let q := (a / ulp)%Z in
    let r := (a mod ulp)%Z in
    let q' :=
      if (2 * r <? ulp)%Z then q
      else if (ulp <? 2 * r)%Z then (q + 1)%Z
      else if Z.even q then q else (q + 1)%Z in
    (Z.sgn z * (q' * ulp))%Z.

(** [a + b], [a - b] and [a * b] *)
Definition js_add (a b : Z) : Z := js_round (a + b).
Definition js_sub (a b : Z) : Z := js_round (a - b).
Definition js_mul (a b : Z) : Z := js_round (a * b).

(** ** Strings *)

Definition drop_string (n : nat) (s : string) : string :=
  String.substring n (String.length s - n) s.

(** [s.replace(pat, rep)] with a string pattern: the first occurrence. *)
Fixpoint replace_first (pat rep s : string) : string :=
  if String.prefix pat s then rep +:+ drop_string (String.length pat) s
  else match s with
       | EmptyString => EmptyString
       | String c s' => String c (replace_first pat rep s')
       end.

(** JavaScript truthiness of a string. *)
Definition truthy (s : string) : bool := negb (String.eqb s "").

Definition to_lower (c : ascii) : ascii :=
  let n := nat_of_ascii c in
  if (65 <=? n)%nat && (n <=? 90)%nat then ascii_of_nat (n + 32) else c.

Fixpoint lower (s : string) : string :=
  match s with
  | EmptyString => EmptyString
  | String c s' => String (to_lower c) (lower s')
  end.

(** *** A regular-expression engine for the examples

    The patterns it knows are those of ordinary characters and dots: an
    ordinary character matches itself up to ASCII case, a dot matches
    any character but a line feed, as in MongoDB's engine.  It refuses
    every other pattern, which MongoDB's engine does only for a text
    that is not a regular expression, such as an opening parenthesis on
    its own; the examples use it on no other pattern. *)
Inductive Atom := Lit (c : ascii) | Dot.

Definition metachar (c : ascii) : bool :=
  bool_decide (c ∈ list_ascii_of_string "\^$.|?*+()[]{}").

Fixpoint parse_regex (pat : string) : option (list Atom) :=
  match pat with
  | EmptyString => Some []
  | String c pat' =>
      if Ascii.eqb c "." then cons Dot <$> parse_regex pat'
      else if metachar c then None
      else cons (Lit c) <$> parse_regex pat'
  end.

Definition atom_matches (a : Atom) (c : ascii) : bool :=
  match a with
  | Lit x => Ascii.eqb (to_lower x) (to_lower c)
  | Dot => negb (Ascii.eqb c "010")
  end.

Fixpoint match_here (atoms : list Atom) (s : string) : bool :=
  match atoms, s with
  | [], _ => true
  | a :: atoms', String c s' => atom_matches a c && match_here atoms' s'
  | _ :: _, EmptyString => false
  end.

(** An unanchored search, as [$regex] does. *)
Fixpoint regex_search (atoms : list Atom) (s : string) : bool :=
  match_here atoms s
  || match s with
     | EmptyString => false
     | String _ s' => regex_search atoms s'
     end.

(** The literal reading of the search filter in the specification: the
    text occurs in the field, up to case. *)
Fixpoint occurs_in (pat s : string) : bool :=
  String.prefix pat s
  || match s with
     | EmptyString => false
     | String _ s' => occurs_in pat s'
     end.

Definition ci_substring (pat s : string) : bool :=
  occurs_in (lower pat) (lower s).

(** ** Collections *)

(** [User.findOne({ email })] *)
Definition findOne_email (email : string) (us : list User.t) : option User.t :=
  List.find (λ u, String.eqb (User.email u) email) us.

(** [User.findOne({ email, role })] *)
Definition findOne_email_role (email : string) (r : Role.t) (us : list User.t)
    : option User.t :=
  List.find (λ u, String.eqb (User.email u) email
                  && bool_decide (User.role u = r)) us.

(** [User.findById(id)] *)
Definition findById_user (id : ObjectId) (us : list User.t) : option User.t :=
  List.find (λ u, String.eqb (User._id u) id) us.

(** [User.findByIdAndUpdate(id, update)]: the first document with that id. *)
Fixpoint update_user (id : ObjectId) (f : User.t → User.t) (us : list User.t)
    : list User.t :=
  match us with
  | [] => []
  | u :: us' =>
      if String.eqb (User._id u) id then f u :: us'
      else u :: update_user id f us'
  end.

(** [User.findByIdAndDelete(id)] *)
Fixpoint delete_user (id : ObjectId) (us : list User.t) : list User.t :=
  match us with
  | [] => []
  | u :: us' =>
      if String.eqb (User._id u) id then us' else u :: delete_user id us'
  end.

(** [Model.findByIdAndUpdate(id, update)] on a keyed collection: the
    document is changed when it exists, nothing happens otherwise. *)
Definition findByIdAndUpdate {A} (id : ObjectId) (f : A → A)
    (m : gmap string A) : gmap string A :=
  alter f id m.

(** [Order.findOne({ _id: id, userId })] *)
Definition findOne_order (id userId : ObjectId) (os : gmap string Order.t)
    : option Order.t :=
  match os !! id with
  | Some o => if String.eqb (Order.userId o) userId then Some o else None
  | None => None
  end.

(** The identifier Mongo gives a new document: one no document of the
    collection has. *)
Definition new_id {A} (m : gmap string A) : ObjectId := fresh (dom m).
Definition new_user_id (us : list User.t) : ObjectId :=
  fresh (User._id <$> us).

(** ** Middleware (middleware/auth.js) *)

Section Handlers.
Context `{Primitives} `{RegexEngine}.

(** [authenticate]: the account the bearer token resolves to, or the 401
    response it sends. *)
Definition authenticate {B} (req : Req B) (st : State) : Response + User.t :=
  match replace_first "Bearer " "" <$> authorization req with
  | None => inl (reply 401 "Access denied. No token provided.")
  | Some token =>
      if truthy token then
        match jwt_verify token with
        | None => inl (reply 401 "Invalid token.")
        | Some (userId, _) =>
            match findById_user userId (db_users st) with
            | None => inl (reply 401 "Invalid token. User not found.")
            | Some user => inr user
            end
        end
      else inl (reply 401 "Access denied. No token provided.")
  end.

(** A role guard either sends a response or calls [next()] ([None]). *)
Definition Guard := User.t → option Response.

Definition isAdmin : Guard := λ user,
  if bool_decide (User.role user ≠ Role.admin)
  then Some (reply 403 "Access denied. Admin only.")
  else None.

Definition isAdminOrSeller : Guard := λ user,
  if bool_decide (User.role user ≠ Role.admin)
     && bool_decide (User.role user ≠ Role.seller)
  then Some (reply 403 "Access denied. Admin or Seller only.")
  else None.

Definition isUser : Guard := λ user,
  if bool_decide (User.role user ≠ Role.user)
  then Some (reply 403 "Access denied. User only.")
  else None.

Fixpoint run_guards (gs : list Guard) (user : User.t) : option Response :=
  match gs with
  | [] => None
  | g :: gs' =>
      match g user with
      | Some r => Some r
      | None => run_guards gs' user
      end
  end.

(** [router.METHOD(path, authenticate, ...guards, handler)] *)
Definition protected {B} (gs : list Guard)
    (handler : User.t → Req B → State → Response * State)
    (req : Req B) (st : State) : Response * State :=
  match authenticate req st with
  | inl r => (r, st)
  | inr user =>
      match run_guards gs user with
      | Some r => (r, st)
      | None => handler user req st
      end
  end.

(** ** Accounts *)

(** The body shared by POST /api/user/register, POST /api/seller/register
    and POST /api/admin/create, which differ in the role they store and
    in their messages; [failed] is the message of the [catch] block,
    reached when [save()] throws. *)
Definition create_account (r : Role.t) (taken created failed : string)
    (req : Req Credentials) (st : State) : Response * State :=
  let '(mkCredentials name email password) := body req in
  match findOne_email email (db_users st) with
  | Some _ => (reply 400 taken, st)
  | None =>
      let hashedPassword := bcrypt_hash password 10 (salt req) in
      let user :=
        User.mk (new_user_id (db_users st)) name email hashedPassword r in
      if User.validate user then
        (send 201 (Some created)
              (Account (User.name user) (User.email user) (User.role user)),
         with_users (db_users st ++ [user]) st)
      else (reply 400 failed, st)
  end.

(** POST /api/user/register (userRoutes.js) *)
Definition user_register := create_account Role.user
  "User already exists with this email" "User registered successfully"
  "Error registering user".

(** POST /api/seller/register (sellerRoutes.js) *)
Definition seller_register := create_account Role.seller
  "User already exists with this email" "Seller registered successfully"
  "Error registering seller".

(** POST /api/admin/create (adminRoutes.js) *)
Definition admin_create := create_account Role.admin
  "Admin already exists with this email" "Admin created successfully"
  "Error creating admin".

(** The body shared by the three login handlers: [found] is the account
    the handler's query returns. *)
Definition login_with (found : option User.t) (invalid welcome : string)
    (req : Req LoginBody) (st : State) : Response * State :=
  match found with
  | None => (reply 400 invalid, st)
  | Some user =>
      if bcrypt_compare (lg_password (body req)) (User.password user) then
        (send 200 (Some welcome)
              (Session (jwt_sign (User._id user) (User.role user))
                       (User.name user) (User.email user) (User.role user)),
         st)
      else (reply 400 invalid, st)
  end.

(** POST /api/user/login: [User.findOne({ email })] *)
Definition user_login (req : Req LoginBody) (st : State) :=
  login_with (findOne_email (lg_email (body req)) (db_users st))
    "Invalid email or password" "Login successful" req st.

(** POST /api/seller/login: [User.findOne({ email, role: 'seller' })] *)
Definition seller_login (req : Req LoginBody) (st : State) :=
  login_with
    (findOne_email_role (lg_email (body req)) Role.seller (db_users st))
    "Invalid seller credentials" "Seller login successful" req st.

(** POST /api/admin/login: [User.findOne({ email, role: 'admin' })] *)
Definition admin_login (req : Req LoginBody) (st : State) :=
  login_with
    (findOne_email_role (lg_email (body req)) Role.admin (db_users st))
    "Invalid admin credentials" "Admin login successful" req st.

(** PUT /profile *)
Definition update_profile (user : User.t) (req : Req ProfileBody)
    (st : State) : Response * State :=
  let '(mkProfile name email) := body req in
  (send 200 (Some "Profile updated successfully")
        (Account name email (User.role user)),
   with_users
     (update_user (User._id user) (User.set_profile name email) (db_users st))
     st).

(** PUT /change-password *)
Definition change_password (user : User.t) (req : Req PasswordBody)
    (st : State) : Response * State :=
  if bcrypt_compare (currentPassword (body req)) (User.password user) then
    let hashedPassword := bcrypt_hash (newPassword (body req)) 10 (salt req) in
    (reply 200 "Password changed successfully",
     with_users
       (update_user (User._id user) (User.set_password hashedPassword)
                    (db_users st))
       st)
  else (reply 400 "Current password is incorrect", st).

(** DELETE /api/admin/user/:id *)
Definition admin_delete_user (_ : User.t) (req : Req unit) (st : State)
    : Response * State :=
  match findById_user (params_id req) (db_users st) with
  | None => (reply 404 "User not found", st)
  | Some _ =>
      (reply 200 "User deleted successfully",
       with_users (delete_user (params_id req) (db_users st)) st)
  end.

(** PUT /api/admin/user/:id/role *)
Definition admin_update_role (_ : User.t) (req : Req string) (st : State)
    : Response * State :=
  match Role.of_string (body req) with
  | None => (reply 400 "Invalid role. Must be admin, user, or seller", st)
  | Some role =>
      match findById_user (params_id req) (db_users st) with
      | None => (reply 404 "User not found", st)
      | Some user =>
          (send 200 (Some "User role updated successfully")
                (Account (User.name user) (User.email user) role),
           with_users
             (update_user (params_id req) (User.set_role role) (db_users st))
             st)
      end
  end.

(** ** Catalog *)

(** POST /addproduct: [new Product(req.body).save()] *)
Definition add_product (_ : User.t) (req : Req Product.t) (st : State)
    : Response * State :=
  let product := body req in
  if Product.validate product then
    let id := new_id (db_products st) in
    (send 201 (Some "Product added successfully") (ProductDoc id product),
     with_products (<[id := product]> (db_products st)) st)
  else (reply 400 "Error adding product", st).

(** PUT /product/:id: [Product.findByIdAndUpdate(id, req.body, { new: true })];
    the update writes the fields of the body as they are (no option asks
    Mongoose to run the schema's validators on an update). *)
Definition update_product (_ : User.t) (req : Req ProductUpdate.t)
    (st : State) : Response * State :=
  let ps :=
    findByIdAndUpdate (params_id req) (ProductUpdate.apply (body req))
                      (db_products st) in
  match ps !! params_id req with
  | None => (reply 404 "Product not found", with_products ps st)
  | Some product =>
      (send 200 (Some "Product updated successfully")
            (ProductDoc (params_id req) product),
       with_products ps st)
  end.

(** DELETE /product/:id *)
Definition delete_product (_ : User.t) (req : Req unit) (st : State)
    : Response * State :=
  match db_products st !! params_id req with
  | None => (reply 404 "Product not found", st)
  | Some _ =>
      (reply 200 "Product deleted successfully",
       with_products (delete (params_id req) (db_products st)) st)
  end.

(** The [filter] object GET /search builds from the query. *)
Record Filter := mkFilter {
  f_name : option string;
  f_price_gte : option Z;
  f_price_lte : option Z;
  f_color : option string
}.

Definition build_filter (q : SearchQuery) : Filter :=
  mkFilter
    (match q_name q with
     | Some name => if truthy name then Some name else None
     | None => None
     end)
    (q_minPrice q)
    (q_maxPrice q)
    (match q_color q with
     | Some color => if truthy color then Some color else None
     | None => None
     end).

(** The filter as the database reads it, with the matchers of its
    patterns; [None] when a pattern is not a regular expression. *)
Record Compiled := mkCompiled {
  c_name : option (string → bool);
  c_price_gte : option Z;
  c_price_lte : option Z;
  c_color : option (string → bool)
}.

Definition compile_pattern (pat : option string)
    : option (option (string → bool)) :=
  match pat with
  | None => Some None
  | Some pat => Some <$> regex_i pat
  end.

Definition compile (f : Filter) : option Compiled :=
  name ← compile_pattern (f_name f);
  color ← compile_pattern (f_color f);
  Some (mkCompiled name (f_price_gte f) (f_price_lte f) color).

(** [{ $regex: pat, $options: 'i' }] on a field. *)
Definition regex_test (re : option (string → bool)) (field : string) : bool :=
  match re with
  | None => true
  | Some matches => matches field
  end.

(** [{ $gte: lo, $lte: hi }] on the price. *)
Definition price_test (lo hi : option Z) (price : Z) : bool :=
  match lo with Some lo => (lo <=? price)%Z | None => true end
  && match hi with Some hi => (price <=? hi)%Z | None => true end.

(** Whether a product satisfies every condition of the filter. *)
Definition satisfies (c : Compiled) (p : Product.t) : bool :=
  regex_test (c_name c) (Product.name p)
  && price_test (c_price_gte c) (c_price_lte c) (Product.price p)
  && regex_test (c_color c) (Product.color p).

(** [Product.find(filter)]; [None] when the query throws.  The documents
    come in the order of their keys here, and in the order of the
    collection in the database. *)
Definition find_products (f : Filter) (ps : gmap string Product.t)
    : option (list (ObjectId * Product.t)) :=
  c ← compile f;
  Some (List.filter (λ kp, satisfies c kp.2) (map_to_list ps)).

(** GET /search: the products found, or the answer of the [catch] block
    when the query throws. *)
Definition search (q : SearchQuery) (st : State) : Response :=
  match find_products (build_filter q) (db_products st) with
  | Some found => send 200 None (ProductList (length found) found)
  | None => reply 500 "Error searching products"
  end.

(** GET /viewproducts *)
Definition view_products (st : State) : Response :=
  let found := map_to_list (db_products st) in
  send 200 None (ProductList (length found) found).

(** ** Orders *)

(** The loop of POST /buy over [products]: for each item in turn the
    product is read, checked, snapshotted into [orderProducts], added to
    [totalAmount] and written back with its quantity lowered, all three
    in JavaScript's arithmetic.  The loop ends either with the response
    it sent or with the accumulated order; the products are those
    written so far in both cases. *)
Fixpoint buy_loop (items : list Item.t) (orderProducts : list OrderItem.t)
    (totalAmount : Z) (ps : gmap string Product.t)
    : (Response + list OrderItem.t * Z) * gmap string Product.t :=
  match items with
  | [] => (inr (orderProducts, totalAmount), ps)
  | item :: rest =>
      match ps !! Item.productId item with
      | None =>
          (inl (reply 404 ("Product not found: " +:+ Item.productId item)), ps)
      | Some product =>
          if (Product.quantity product <? Item.quantity item)%Z then
            (inl (reply 400
                    ("Insufficient stock for " +:+ Product.name product)), ps)
          else
            buy_loop rest
              (orderProducts ++
                 [OrderItem.mk (Item.productId item) (Product.name product)
                               (Product.price product) (Item.quantity item)])
              (js_add totalAmount
                      (js_mul (Product.price product) (Item.quantity item)))
              (findByIdAndUpdate (Item.productId item)
                 (Product.set_quantity
                    (js_sub (Product.quantity product) (Item.quantity item)))
                 ps)
      end
  end.

(** POST /api/user/buy *)
Definition buy (user : User.t) (req : Req BuyBody) (st : State)
    : Response * State :=
  match products (body req) with
  | None | Some [] => (reply 400 "No products to buy", st)
  | Some items =>
      match buy_loop items [] 0%Z (db_products st) with
      | (inl r, ps) => (r, with_products ps st)
      | (inr (orderProducts, totalAmount), ps) =>
          let order :=
            Order.new (User._id user) orderProducts totalAmount
                      (shippingAddress (body req)) in
          if Order.validate order then
            let id := new_id (db_orders st) in
            (send 201 (Some "Order placed successfully") (OrderDoc id order),
             mkState (db_users st) ps (<[id := order]> (db_orders st)))
          else (reply 400 "Error placing order", with_products ps st)
      end
  end.

(** The loop of the cancellation over [order.products]. *)
Definition restore_stock (items : list OrderItem.t)
    (ps : gmap string Product.t) : gmap string Product.t :=
  foldl (λ ps item,
           findByIdAndUpdate (OrderItem.productId item)
             (Product.inc_quantity (OrderItem.quantity item)) ps)
        ps items.

(** PUT /api/user/order/:id/cancel *)
Definition cancel (user : User.t) (req : Req unit) (st : State)
    : Response * State :=
  match findOne_order (params_id req) (User._id user) (db_orders st) with
  | None => (reply 404 "Order not found", st)
  | Some order =>
      if bool_decide (Order.status order ≠ Status.pending) then
        (reply 400 "Cannot cancel order. Order already processed.", st)
      else
        let ps := restore_stock (Order.products order) (db_products st) in
        let order := Order.set_status Status.cancelled order in
        if Order.validate order then
          (send 200 (Some "Order cancelled successfully")
                (OrderDoc (params_id req) order),
           mkState (db_users st) ps
                   (<[params_id req := order]> (db_orders st)))
        else (reply 400 "Error cancelling order", with_products ps st)
  end.

(** PUT /api/admin/order/:id/status *)
Definition set_order_status (_ : User.t) (req : Req string) (st : State)
    : Response * State :=
  match Status.of_string (body req) with
  | None => (reply 400 "Invalid status", st)
  | Some status =>
      let os :=
        findByIdAndUpdate (params_id req) (Order.set_status status)
                          (db_orders st) in
      match os !! params_id req with
      | None => (reply 404 "Order not found", with_orders os st)
      | Some order =>
          (send 200 (Some "Order status updated successfully")
                (OrderDoc (params_id req) order),
           with_orders os st)
      end
  end.

(** ** The routes that write to the database

    Each constructor is one route of index.js with the middleware its
    router registers in front of the handler. *)
Inductive Call :=
| POST_user_register (req : Req Credentials)
| PUT_user_profile (req : Req ProfileBody)
| PUT_user_change_password (req : Req PasswordBody)
| POST_user_buy (req : Req BuyBody)
| PUT_user_order_cancel (req : Req unit)
| POST_addproduct (req : Req Product.t)
| PUT_product (req : Req ProductUpdate.t)
| DELETE_product (req : Req unit)
| POST_admin_create (req : Req Credentials)
| DELETE_admin_user (req : Req unit)
| PUT_admin_user_role (req : Req string)
| DELETE_admin_product (req : Req unit)
| PUT_admin_product (req : Req ProductUpdate.t)
| PUT_admin_order_status (req : Req string)
| POST_seller_register (req : Req Credentials)
| PUT_seller_profile (req : Req ProfileBody)
| POST_seller_addproduct (req : Req Product.t)
| PUT_seller_product (req : Req ProductUpdate.t).

Definition route (c : Call) (st : State) : Response * State :=
  match c with
  | POST_user_register req => user_register req st
  | PUT_user_profile req => protected [] update_profile req st
  | PUT_user_change_password req => protected [] change_password req st
  | POST_user_buy req => protected [] buy req st
  | PUT_user_order_cancel req => protected [] cancel req st
  | POST_addproduct req => protected [isAdminOrSeller] add_product req st
  | PUT_product req => protected [isAdminOrSeller] update_product req st
  | DELETE_product req => protected [isAdmin] delete_product req st
  | POST_admin_create req => admin_create req st
  | DELETE_admin_user req => protected [isAdmin] admin_delete_user req st
  | PUT_admin_user_role req => protected [isAdmin] admin_update_role req st
  | DELETE_admin_product req => protected [isAdmin] delete_product req st
  | PUT_admin_product req => protected [isAdmin] update_product req st
  | PUT_admin_order_status req => protected [isAdmin] set_order_status req st
  | POST_seller_register req => seller_register req st
  | PUT_seller_profile req => protected [isAdminOrSeller] update_profile req st
  | POST_seller_addproduct req =>
      protected [isAdminOrSeller] add_product req st
  | PUT_seller_product req =>
      protected [isAdminOrSeller] update_product req st
  end.

(** The state after a sequence of calls. *)
Definition run (calls : list Call) (st : State) : State :=
  foldl (λ st c, (route c st).2) st calls.

End Handlers.

(** ** A toy instance of the primitives, to run the handlers

    The hash keeps the password readable and the token is the account id
    after a letter for the role: nothing like the real libraries, but
    enough to evaluate the handlers on examples. *)
Definition demo_hash (password : string) (_ : nat) (_ : string) : string :=
  "$2a$10$" +:+ password.

Definition demo_compare (password hash : string) : bool :=
  String.eqb hash ("$2a$10$" +:+ password).

Definition demo_sign (userId : ObjectId) (r : Role.t) : string :=
  match r with
  | Role.user => "u" +:+ userId
  | Role.seller => "s" +:+ userId
  | Role.admin => "a" +:+ userId
  end.

Definition demo_verify (token : string) : option (ObjectId * Role.t) :=
  match token with
  | String "u" userId => Some (userId, Role.user)
  | String "s" userId => Some (userId, Role.seller)
  | String "a" userId => Some (userId, Role.admin)
  | _ => None
  end.

Definition demo : Primitives :=
  Build_Primitives demo_hash demo_compare demo_sign demo_verify.

(** The engine of the examples. *)
Definition dot_engine : RegexEngine :=
  Build_RegexEngine (λ pat, regex_search <$> parse_regex pat).

(** ** A small shop, for the examples *)

Definition alice : User.t :=
  User.mk "u1" "Alice" "a@x.com" "$2a$10$secret" Role.user.
Definition sam : User.t :=
  User.mk "u2" "Sam" "sam@x.com" "$2a$10$sell" Role.seller.
Definition root : User.t :=
  User.mk "u3" "Root" "root@x.com" "$2a$10$toor" Role.admin.

Definition pen : Product.t := Product.mk "Pen" 20 "A pen" "Blue" 5.
Definition ink : Product.t := Product.mk "Ink" 7 "A bottle" "Black" 2.
Definition abc : Product.t := Product.mk "abc" 10 "Letters" "Red" 1.

Definition shop : State :=
  mkState [alice; sam; root] {[ "p1" := pen; "p2" := ink; "p3" := abc ]} ∅.

(** A depot whose one product has the largest price below 2^53 and a
    stock above 2^53. *)
Definition bullion : Product.t :=
  Product.mk "Bullion" 9007199254740991 "A bar" "Gold" 9007199254740994.

Definition depot : State := mkState [alice] {[ "p1" := bullion ]} ∅.

Definition as_ {B} (token : string) (id : string) (b : B) : Req B :=
  mkReq (Some ("Bearer " +:+ token)) id b "salt".

Definition anonymous {B} (id : string) (b : B) : Req B :=
  mkReq None id b "salt".

(** ** Vocabulary of the statements *)

(** The requested quantity is at most the product's quantity-on-hand. *)
Definition line_in_stock (ps : gmap string Product.t) (item : Item.t) : Prop :=
  ∃ product, ps !! Item.productId item = Some product
             ∧ (Item.quantity item ≤ Product.quantity product)%Z.

(** The line item a request line gives rise to, with the product's name
    and price as they are in [ps]. *)
Fixpoint order_lines (ps : gmap string Product.t) (items : list Item.t)
    : list OrderItem.t :=
  match items with
  | [] => []
  | item :: rest =>
      match ps !! Item.productId item with
      | Some product =>
          OrderItem.mk (Item.productId item) (Product.name product)
                       (Product.price product) (Item.quantity item)
          :: order_lines ps rest
      | None => order_lines ps rest
      end
  end.

(** The sum over the lines of price times requested quantity, with the
    prices of [ps]. *)
Fixpoint total (ps : gmap string Product.t) (items : list Item.t) : Z :=
  match items with
  | [] => 0
  | item :: rest =>
      (match ps !! Item.productId item with
       | Some product => Product.price product * Item.quantity item
       | None => 0
       end + total ps rest)%Z
  end.

(** The write a purchase makes for one line. *)
Definition take_stock (ps : gmap string Product.t) (item : Item.t)
    : gmap string Product.t :=
  alter (λ product,
           Product.set_quantity
             (js_sub (Product.quantity product) (Item.quantity item)) product)
        (Item.productId item) ps.

(** Every line asks for at most the quantity-on-hand its product has when
    the line's turn comes, the lines before it having taken theirs. *)
Fixpoint in_stock_in_turn (ps : gmap string Product.t) (items : list Item.t)
    : Prop :=
  match items with
  | [] => True
  | item :: rest =>
      line_in_stock ps item ∧ in_stock_in_turn (take_stock ps item) rest
  end.

(** The quantities of a purchase are in the range in which the
    subtraction of the handler is exact: no line asks for a negative
    quantity, and the products the lines name have at most 2^53 in
    stock. *)
Definition quantities_exact (ps : gmap string Product.t) (items : list Item.t)
    : Prop :=
  Forall (λ item,
            (0 ≤ Item.quantity item)%Z
            ∧ ∀ product, ps !! Item.productId item = Some product →
                         (Product.quantity product ≤ 2 ^ 53)%Z)
         items.

(** The amounts of a purchase are in the range in which the arithmetic
    of the handler is exact: the quantities are, the products the lines
    name have a non-negative price, and the total is at most 2^53. *)
Definition amounts_exact (ps : gmap string Product.t) (items : list Item.t)
    : Prop :=
  quantities_exact ps items
  ∧ Forall (λ item,
              ∀ product, ps !! Item.productId item = Some product →
                         (0 ≤ Product.price product)%Z)
           items
  ∧ (total ps items ≤ 2 ^ 53)%Z.

(** The quantity a request asks of one product, over all its lines. *)
Fixpoint asked (pid : ObjectId) (items : list Item.t) : Z :=
  match items with
  | [] => 0
  | item :: rest =>
      ((if String.eqb (Item.productId item) pid
        then Item.quantity item else 0) + asked pid rest)%Z
  end.

(** The request line an order's line item came from. *)
Definition requested (line : OrderItem.t) : Item.t :=
  Item.mk (OrderItem.productId line) (OrderItem.quantity line).

(** The quantity an order holds of one product, over all its lines. *)
Fixpoint held (pid : ObjectId) (lines : list OrderItem.t) : Z :=
  match lines with
  | [] => 0
  | line :: rest =>
      ((if String.eqb (OrderItem.productId line) pid
        then OrderItem.quantity line else 0) + held pid rest)%Z
  end.

(** Every product's quantity-on-hand is non-negative. *)
Definition stock_nonneg (st : State) : Prop :=
  map_Forall (λ _ product, (0 ≤ Product.quantity product)%Z) (db_products st).

(** Every line of every order has a non-negative quantity. *)
Definition lines_nonneg (st : State) : Prop :=
  map_Forall (λ _ order, Forall (λ line, (0 ≤ OrderItem.quantity line)%Z)
                                (Order.products order))
             (db_orders st).

(** A call that supplies no negative quantity: a product is created or
    updated with a non-negative quantity (or none), a purchase asks for
    non-negative quantities. *)
Definition supplies_nonneg (c : Call) : Prop :=
  match c with
  | POST_addproduct req | POST_seller_addproduct req =>
      (0 ≤ Product.quantity (body req))%Z
  | PUT_product req | PUT_admin_product req | PUT_seller_product req =>
      ∀ q, ProductUpdate.quantity (body req) = Some q → (0 ≤ q)%Z
  | POST_user_buy req =>
      ∀ items, products (body req) = Some items →
               Forall (λ item, (0 ≤ Item.quantity item)%Z) items
  | _ => True
  end.

(** The admin's status update asking for pending. *)
Definition asks_pending (c : Call) : Prop :=
  match c with
  | PUT_admin_order_status req =>
      Status.of_string (body req) = Some Status.pending
  | _ => False
  end.

(** The two invariants together. *)
Definition sound (st : State) : Prop := stock_nonneg st ∧ lines_nonneg st.

(** The order [id] exists and is past pending. *)
Definition settled (id : ObjectId) (st : State) : Prop :=
  ∃ order, db_orders st !! id = Some order
           ∧ Order.status order ≠ Status.pending.

(** A pattern without metacharacters. *)
Definition plain (pat : string) : Prop :=
  Forall (λ c, metachar c = false) (list_ascii_of_string pat).

Section SearchVocabulary.
Context `{RegexEngine}.


(** The name or color text of the query is not a regular expression. *)
Definition invalid_pattern (q : SearchQuery) : Prop :=
  ∃ p, (q_name q = Some p ∨ q_color q = Some p)
       ∧ truthy p = true ∧ regex_i p = None.

End SearchVocabulary.

(** A shop with one order, cancelled by its owner. *)
Definition shop_after_cancel : State :=
  (@run demo
     [POST_user_buy (as_ "uu1" "" (mkBuy (Some [Item.mk "p1" 3]) "Home"));
      PUT_user_order_cancel (as_ "uu1" "0" ())]
     shop).

(** ** The routes that only read *)

(** GET /api/product/:id (productRoutes.js) *)
Definition get_product (req : Req unit) (st : State) : Response :=
  match db_products st !! params_id req with
  | None => reply 404 "Product not found"
  | Some product => send 200 None (ProductDoc (params_id req) product)
  end.

(** GET /api/user/profile (userRoutes.js) *)
Definition get_profile (user : User.t) (_ : Req unit) (st : State)
    : Response * State :=
  (send 200 None
        (Account (User.name user) (User.email user) (User.role user)), st).

(** GET /api/user/order/:id (userRoutes.js) *)
Definition get_order (user : User.t) (req : Req unit) (st : State)
    : Response * State :=
  match findOne_order (params_id req) (User._id user) (db_orders st) with
  | None => (reply 404 "Order not found", st)
  | Some order => (send 200 None (OrderDoc (params_id req) order), st)
  end.

(** [User.countDocuments({ role })] *)
Definition countDocuments_role (r : Role.t) (us : list User.t) : nat :=
  length (List.filter (λ u, bool_decide (User.role u = r)) us).

(** The [stats] object of GET /api/admin/dashboard (adminRoutes.js). *)
Record Stats := mkStats {
  totalUsers : nat;
  totalSellers : nat;
  totalAdmins : nat;
  totalProducts : nat
}.

Definition dashboard (st : State) : Stats :=
  mkStats (countDocuments_role Role.user (db_users st))
          (countDocuments_role Role.seller (db_users st))
          (countDocuments_role Role.admin (db_users st))
          (size (db_products st)).

Section Reads.
Context `{Primitives}.

(** [router.get('/profile', authenticate, ...)] *)
Definition GET_user_profile (req : Req unit) (st : State) : Response * State :=
  protected [] get_profile req st.

(** [router.get('/order/:id', authenticate, ...)] *)
Definition GET_user_order (req : Req unit) (st : State) : Response * State :=
  protected [] get_order req st.

(** [router.get('/dashboard', authenticate, isAdmin, ...)]: the response
    a middleware sent, or the statistics, sent with status 200. *)
Definition GET_admin_dashboard (req : Req unit) (st : State)
    : Response + Stats :=
  match authenticate req st with
  | inl r => inl r
  | inr user =>
      match run_guards [isAdmin] user with
      | Some r => inl r
      | None => inr (dashboard st)
      end
  end.

(** What [authenticate] makes of a call: nothing for a route registered
    without it. *)
Definition caller (c : Call) (st : State) : option (Response + User.t) :=
  match c with
  | POST_user_register _ | POST_admin_create _ | POST_seller_register _ =>
      None
  | PUT_user_profile req | PUT_seller_profile req =>
      Some (authenticate req st)
  | PUT_user_change_password req => Some (authenticate req st)
  | POST_user_buy req => Some (authenticate req st)
  | PUT_user_order_cancel req | DELETE_product req | DELETE_admin_user req
  | DELETE_admin_product req =>
      Some (authenticate req st)
  | POST_addproduct req | POST_seller_addproduct req =>
      Some (authenticate req st)
  | PUT_product req | PUT_admin_product req | PUT_seller_product req =>
      Some (authenticate req st)
  | PUT_admin_user_role req | PUT_admin_order_status req =>
      Some (authenticate req st)
  end.

End Reads.

(** The roles a route lets through. *)
Definition allowed (c : Call) : list Role.t :=
  match c with
  | DELETE_product _ | DELETE_admin_user _ | PUT_admin_user_role _
  | DELETE_admin_product _ | PUT_admin_product _ | PUT_admin_order_status _ =>
      [Role.admin]
  | POST_addproduct _ | PUT_product _ | PUT_seller_profile _
  | POST_seller_addproduct _ | PUT_seller_product _ =>
      [Role.admin; Role.seller]
  | _ => [Role.user; Role.seller; Role.admin]
  end.

(** A profile update, on the user or on the seller router. *)
Definition edits_profile (c : Call) : Prop :=
  match c with
  | PUT_user_profile _ | PUT_seller_profile _ => True
  | _ => False
  end.

(** The sum of price times quantity over the lines of an order, added
    up line by line in JavaScript's arithmetic. *)
Definition lines_total (lines : list OrderItem.t) : Z :=
  foldl (λ sum line,
           js_add sum (js_mul (OrderItem.price line) (OrderItem.quantity line)))
        0%Z lines.

(** Every order's totalAmount is the sum over its own lines. *)
Definition totals_consistent (st : State) : Prop :=
  map_Forall (λ _ order,
                Order.totalAmount order = lines_total (Order.products order))
             (db_orders st).

(** A product with its quantity blanked: what a purchase or a
    cancellation leaves alone. *)
Definition blank (p : Product.t) : Product.t := Product.set_quantity 0 p.

(** An account without its name and email: what a profile update leaves
    alone. *)
Definition credentials (u : User.t) : ObjectId * string * Role.t :=
  (User._id u, User.password u, User.role u).

(** * Properties *)

(** ** JavaScript's arithmetic *)

(** An integer of magnitude at most 2^53 is a double. *)
Lemma js_round_exact (z : Z) : (Z.abs z ≤ 2 ^ 53)%Z → js_round z = z.
Proof.
  intros Hz. unfold js_round.
  by destruct (Z.leb_spec (Z.abs z) (2 ^ 53)); [|lia].
Qed.

(** Rounding keeps a number on its side of zero. *)
Lemma js_round_nonneg (z : Z) : (0 ≤ z)%Z → (0 ≤ js_round z)%Z.
Proof.
  intros Hz. unfold js_round. cbv zeta.
  destruct (Z.abs z <=? 2 ^ 53)%Z; [done|].
  set (ulp := (2 ^ (Z.log2 (Z.abs z) - 52))%Z).
  assert (0 ≤ ulp)%Z as Hulp by (apply Z.pow_nonneg; lia).
  assert (0 ≤ Z.abs z / ulp)%Z as Hq
    by (apply Z_div_nonneg_nonneg; [lia|done]).
  apply Z.mul_nonneg_nonneg; [by apply Z.sgn_nonneg|].
  apply Z.mul_nonneg_nonneg; [|done].
  repeat case_match; lia.
Qed.

Lemma js_sub_exact (a b : Z) :
  (0 ≤ b)%Z → (b ≤ a)%Z → (a ≤ 2 ^ 53)%Z → js_sub a b = (a - b)%Z.
Proof. intros Hb Hba Ha. apply js_round_exact. lia. Qed.

Lemma js_add_exact (a b : Z) :
  (0 ≤ a)%Z → (0 ≤ b)%Z → (a + b ≤ 2 ^ 53)%Z → js_add a b = (a + b)%Z.
Proof. intros Ha Hb Hab. apply js_round_exact. lia. Qed.

Lemma js_mul_exact (a b : Z) :
  (0 ≤ a)%Z → (0 ≤ b)%Z → (a * b ≤ 2 ^ 53)%Z → js_mul a b = (a * b)%Z.
Proof. intros Ha Hb Hab. apply js_round_exact. nia. Qed.

(** Beyond 2^53 a result is rounded, to the even neighbour when it lies
    halfway; below, it is exact. *)
Lemma js_round_examples :
  js_mul 9007199254740991 3 = 27021597764222972%Z
  ∧ js_sub 9007199254740994 1 = 9007199254740992%Z
  ∧ js_add 9007199254740992 1 = 9007199254740992%Z
  ∧ js_add 9007199254740992 3 = 9007199254740996%Z
  ∧ js_sub 5 3 = 2%Z.
Proof. by vm_compute. Qed.

(** Range conditions on the amounts of a concrete request. *)
Ltac in_range :=
  lazymatch goal with
  | |- Forall _ [] => apply Forall_nil_2
  | |- Forall _ (_ :: _) => apply Forall_cons_2; in_range
  | |- _ ∧ _ => split; in_range
  | |- ∀ _, _ = Some _ → _ =>
      let product := fresh "product" in
      let Hp := fresh "Hp" in
      intros product Hp; vm_compute in Hp; injection Hp as <-; in_range
  | |- _ => first [by vm_compute | simpl; lia]
  end.

(** ** Helper lemmas on the collections *)

Lemma inc_quantity_inc (a b : Z) (product : Product.t) :
  Product.inc_quantity a (Product.inc_quantity b product)
  = Product.inc_quantity (b + a) product.
Proof.
  unfold Product.inc_quantity, Product.set_quantity. simpl.
  by rewrite Z.add_assoc.
Qed.

Lemma inc_quantity_0 (product : Product.t) :
  Product.inc_quantity 0 product = product.
Proof.
  destruct product. unfold Product.inc_quantity, Product.set_quantity.
  simpl. by rewrite Z.add_0_r.
Qed.

Lemma update_read_is_take (ps : gmap string Product.t) item product :
  ps !! Item.productId item = Some product →
  findByIdAndUpdate (Item.productId item)
    (Product.set_quantity
       (js_sub (Product.quantity product) (Item.quantity item))) ps
  = take_stock ps item.
Proof.
  intros Hp. unfold findByIdAndUpdate, take_stock.
  apply map_eq. intros i. rewrite !lookup_alter.
  case_decide; [subst i|done].
  by rewrite Hp.
Qed.

Lemma take_stock_other ps item pid :
  pid ≠ Item.productId item → take_stock ps item !! pid = ps !! pid.
Proof. intros Hne. unfold take_stock. by rewrite lookup_alter_ne. Qed.

(** One step of the purchase loop on a line that passes both checks. *)
Lemma buy_loop_step item rest acc tot ps product :
  ps !! Item.productId item = Some product →
  (Item.quantity item ≤ Product.quantity product)%Z →
  buy_loop (item :: rest) acc tot ps
  = buy_loop rest
      (acc ++ [OrderItem.mk (Item.productId item) (Product.name product)
                            (Product.price product) (Item.quantity item)])
      (js_add tot (js_mul (Product.price product) (Item.quantity item)))
      (take_stock ps item).
Proof.
  intros Hp Hq. simpl. rewrite Hp.
  destruct (Z.ltb_spec (Product.quantity product) (Item.quantity item));
    [lia|].
  by rewrite (update_read_is_take ps item product Hp).
Qed.

(** For lines that name pairwise distinct products, being in stock when
    the line's turn comes is being in stock at call time. *)
Lemma in_stock_at_call_time ps items :
  NoDup (Item.productId <$> items) →
  Forall (line_in_stock ps) items →
  in_stock_in_turn ps items.
Proof.
  revert ps. induction items as [|item rest IH]; intros ps Hnd Hin; [done|].
  rewrite fmap_cons in Hnd. apply NoDup_cons in Hnd as [Hfresh Hnd].
  apply Forall_cons in Hin as [Hitem Hin].
  split; [done|]. apply IH; [done|].
  apply Forall_forall. intros i Hi.
  destruct (proj1 (Forall_forall _ _) Hin i Hi) as (p & Hpi & Hqi).
  exists p. split; [|done]. rewrite take_stock_other; [done|].
  intros Heq. apply Hfresh. rewrite <- Heq. by apply list_elem_of_fmap_2.
Qed.

Lemma new_id_fresh {A} (m : gmap string A) : m !! new_id m = None.
Proof. apply not_elem_of_dom. unfold new_id. apply is_fresh. Qed.


(** What a run of the loop that reaches its end has done: it appended
    one line per item, with the item's product and quantity, and made
    one write per item, in order. *)
Lemma buy_loop_completes items : ∀ acc tot ps acc' tot' ps',
  buy_loop items acc tot ps = (inr (acc', tot'), ps') →
  ∃ lines, acc' = acc ++ lines
           ∧ requested <$> lines = items
           ∧ ps' = foldl take_stock ps items.
Proof.
  induction items as [|item rest IH]; intros acc tot ps acc' tot' ps' Hrun.
  - simpl in Hrun. injection Hrun as <- <- <-. exists [].
    by rewrite app_nil_r.
  - simpl in Hrun.
    destruct (ps !! Item.productId item) as [product|] eqn:Hp; [|done].
    destruct (Product.quantity product <? Item.quantity item)%Z; [done|].
    rewrite (update_read_is_take ps item product Hp) in Hrun.
    apply IH in Hrun as (lines & -> & Hreq & ->).
    eexists (_ :: lines). rewrite <- app_assoc. split_and!; [done| |done].
    rewrite fmap_cons, Hreq. by destruct item.
Qed.

(** A purchase that does not answer 201 stores no order. *)
Lemma buy_refused_no_order user (req : Req BuyBody) st :
  statusCode (buy user req st).1 ≠ 201 →
  db_orders (buy user req st).2 = db_orders st.
Proof.
  unfold buy. destruct (products (body req)) as [[|item rest]|]; [done| |done].
  destruct (buy_loop _ _ _ _) as [[r|[acc tot]] ps]; [done|].
  simpl. done.
Qed.

(** ** Placing an order *)

Lemma buy_unfold user (req : Req BuyBody) st items :
  products (body req) = Some items →
  items ≠ [] →
  buy user req st
  = match buy_loop items [] 0%Z (db_products st) with
    | (inl r, ps) => (r, with_products ps st)
    | (inr (orderProducts, totalAmount), ps) =>
        (send 201 (Some "Order placed successfully")
              (OrderDoc (new_id (db_orders st))
                 (Order.new (User._id user) orderProducts totalAmount
                            (shippingAddress (body req)))),
         mkState (db_users st) ps
           (<[new_id (db_orders st) :=
                Order.new (User._id user) orderProducts totalAmount
                          (shippingAddress (body req))]> (db_orders st)))
    end.
Proof.
  intros Hbody Hne. unfold buy. rewrite Hbody.
  destruct items; [done|]. reflexivity.
Qed.

Lemma order_lines_take ps item rest :
  order_lines (take_stock ps item) rest = order_lines ps rest.
Proof.
  induction rest as [|line rest IH]; [done|].
  simpl. rewrite IH. unfold take_stock. rewrite lookup_alter.
  case_decide as Heq; [|done]. rewrite <- Heq.
  by destruct (ps !! Item.productId item).
Qed.

Lemma total_take ps item rest :
  total (take_stock ps item) rest = total ps rest.
Proof.
  induction rest as [|line rest IH]; [done|].
  simpl. rewrite IH. unfold take_stock. rewrite lookup_alter.
  case_decide as Heq; [|done]. rewrite <- Heq.
  by destruct (ps !! Item.productId item).
Qed.

(** The writes of a purchase, read back product by product. *)
Lemma take_exact_lookup ps item product pid :
  ps !! Item.productId item = Some product →
  (0 ≤ Item.quantity item)%Z →
  (Item.quantity item ≤ Product.quantity product)%Z →
  (Product.quantity product ≤ 2 ^ 53)%Z →
  take_stock ps item !! pid
  = Product.inc_quantity
      (- (if String.eqb (Item.productId item) pid
          then Item.quantity item else 0))
    <$> ps !! pid.
Proof.
  intros Hp H0 Hq Hmax. unfold take_stock. rewrite lookup_alter.
  destruct (String.eqb_spec (Item.productId item) pid) as [<-|Hne].
  - rewrite decide_True by done. rewrite Hp. simpl.
    by rewrite js_sub_exact.
  - rewrite decide_False by done.
    destruct (ps !! pid) as [other|]; [|done].
    simpl. by rewrite inc_quantity_0.
Qed.

(** The quantities that are in the exact range stay there as the lines
    before them take theirs. *)
Lemma quantities_exact_take ps item rest product :
  ps !! Item.productId item = Some product →
  (0 ≤ Item.quantity item)%Z →
  (Item.quantity item ≤ Product.quantity product)%Z →
  (Product.quantity product ≤ 2 ^ 53)%Z →
  quantities_exact ps rest →
  quantities_exact (take_stock ps item) rest.
Proof.
  intros Hp H0 Hq Hmax Hall. unfold quantities_exact.
  eapply Forall_impl; [exact Hall|].
  intros line [Hline Hstock]. split; [done|].
  intros other.
  rewrite (take_exact_lookup ps item product _ Hp H0 Hq Hmax).
  destruct (ps !! Item.productId line) as [before|] eqn:Hb; [|done].
  simpl. intros [= <-]. specialize (Hstock before eq_refl).
  simpl. destruct (String.eqb_spec (Item.productId item) (Item.productId line))
    as [Heq|_]; [|lia].
  rewrite <- Heq, Hp in Hb. injection Hb as <-. lia.
Qed.

Lemma prices_take ps item rest :
  Forall (λ line, ∀ product, ps !! Item.productId line = Some product →
                             (0 ≤ Product.price product)%Z) rest →
  Forall (λ line, ∀ product,
            take_stock ps item !! Item.productId line = Some product →
            (0 ≤ Product.price product)%Z) rest.
Proof.
  intros Hall. eapply Forall_impl; [exact Hall|]. intros line Hline other.
  unfold take_stock. rewrite lookup_alter.
  case_decide as Heq; [|apply Hline]. rewrite Heq.
  destruct (ps !! Item.productId line) as [before|] eqn:Hb; [|done].
  simpl. intros [= <-]. by apply (Hline before).
Qed.

Lemma total_nonneg ps items :
  Forall (λ item, (0 ≤ Item.quantity item)%Z) items →
  Forall (λ item, ∀ product, ps !! Item.productId item = Some product →
                             (0 ≤ Product.price product)%Z) items →
  (0 ≤ total ps items)%Z.
Proof.
  induction items as [|item rest IH]; intros Hq Hp; [done|].
  apply Forall_cons in Hq as [Hq Hqs]. apply Forall_cons in Hp as [Hp Hps].
  simpl. specialize (IH Hqs Hps).
  destruct (ps !! Item.productId item) as [product|]; [|lia].
  specialize (Hp product eq_refl). nia.
Qed.

Lemma quantities_exact_nonneg ps items :
  quantities_exact ps items →
  Forall (λ item, (0 ≤ Item.quantity item)%Z) items.
Proof. intros Hall. eapply Forall_impl; [exact Hall|]. by intros item [? _]. Qed.

(** A purchase whose quantities are in the exact range and that reaches
    the end of its loop has lowered each product by what the request
    asks of it. *)
Lemma buy_loop_exact_stock items : ∀ acc tot ps acc' tot' ps',
  buy_loop items acc tot ps = (inr (acc', tot'), ps') →
  quantities_exact ps items →
  ∀ pid, ps' !! pid
         = Product.inc_quantity (- asked pid items) <$> ps !! pid.
Proof.
  induction items as [|item rest IH];
    intros acc tot ps acc' tot' ps' Hrun Hex pid.
  - simpl in Hrun. injection Hrun as _ _ <-.
    destruct (ps !! pid) as [product|]; [|done].
    simpl. by rewrite inc_quantity_0.
  - simpl in Hrun.
    destruct (ps !! Item.productId item) as [product|] eqn:Hp; [|done].
    destruct (Z.ltb_spec (Product.quantity product) (Item.quantity item))
      as [|Hq]; [done|].
    apply Forall_cons in Hex as [[H0 Hmax] Hex]. specialize (Hmax product Hp).
    rewrite (update_read_is_take ps item product Hp) in Hrun.
    rewrite (IH _ _ _ _ _ _ Hrun
               (quantities_exact_take ps item rest product Hp H0 Hq Hmax Hex)).
    rewrite (take_exact_lookup ps item product pid Hp H0 Hq Hmax).
    destruct (ps !! pid) as [other|]; [|done].
    simpl. rewrite inc_quantity_inc. do 2 f_equal. lia.
Qed.

(** The loop on lines that are each in stock when their turn comes, with
    amounts in the exact range. *)
Lemma buy_loop_in_turn items : ∀ acc tot ps,
  in_stock_in_turn ps items →
  quantities_exact ps items →
  Forall (λ item, ∀ product, ps !! Item.productId item = Some product →
                             (0 ≤ Product.price product)%Z) items →
  (0 ≤ tot)%Z →
  (tot + total ps items ≤ 2 ^ 53)%Z →
  buy_loop items acc tot ps
  = (inr (acc ++ order_lines ps items, (tot + total ps items)%Z),
     foldl take_stock ps items).
Proof.
  induction items as [|item rest IH]; intros acc tot ps Hin Hex Hpr Htot Hmax.
  - simpl. by rewrite app_nil_r, Z.add_0_r.
  - destruct Hin as [(product & Hp & Hq) Hin].
    rewrite (buy_loop_step item rest acc tot ps product Hp Hq).
    apply Forall_cons in Hex as [[H0 Hstock] Hex].
    specialize (Hstock product Hp).
    apply Forall_cons in Hpr as [Hprice Hpr]. specialize (Hprice product Hp).
    pose proof (total_nonneg ps rest (quantities_exact_nonneg ps rest Hex) Hpr)
      as Hrest.
    simpl in Hmax. rewrite Hp in Hmax.
    assert (0 ≤ Product.price product * Item.quantity item)%Z by nia.
    rewrite js_mul_exact by (done || lia).
    rewrite js_add_exact by (done || lia).
    rewrite IH; [|done| | | |].
    + rewrite order_lines_take, total_take.
      simpl. by rewrite Hp, <- app_assoc, Z.add_assoc.
    + by apply (quantities_exact_take ps item rest product).
    + by apply prices_take.
    + lia.
    + rewrite total_take. lia.
Qed.

(** C1, as amended.  For every purchase with at least one line in which
    every line asks for at most the quantity-on-hand its product has
    when the line's turn comes (which is the quantity at call time when
    no earlier line names the same product), and whose amounts are
    integers in the range in which the handler's arithmetic on doubles
    is exact (no negative quantity or price, at most 2^53 in stock and
    in total), the call answers 201 and stores, under a new id, an order
    of status pending, owned by the caller, with the given shipping
    address, whose lines are the snapshots of the requested lines and
    whose totalAmount is the sum over the lines of the product's price
    at call time times the requested quantity; each product's
    quantity-on-hand is lowered by exactly the quantity the request asks
    of it, and nothing else of the products changes. *)
Theorem buy_places_order user (req : Req BuyBody) st items :
  products (body req) = Some items →
  items ≠ [] →
  in_stock_in_turn (db_products st) items →
  amounts_exact (db_products st) items →
  ∃ order st',
    buy user req st
    = (send 201 (Some "Order placed successfully")
            (OrderDoc (new_id (db_orders st)) order), st')
    ∧ order = Order.mk (User._id user) (order_lines (db_products st) items)
                       (total (db_products st) items)
                       (shippingAddress (body req)) Status.pending
    ∧ db_orders st !! new_id (db_orders st) = None
    ∧ db_orders st' = <[new_id (db_orders st) := order]> (db_orders st)
    ∧ requested <$> Order.products order = items
    ∧ (∀ pid,
         db_products st' !! pid
         = Product.inc_quantity (- asked pid items) <$> db_products st !! pid).
Proof.
  intros Hbody Hne Hin (Hex & Hpr & Hmax).
  pose proof (buy_loop_in_turn items [] 0%Z (db_products st) Hin Hex Hpr
                (Z.le_refl 0) Hmax) as Hrun.
  rewrite (buy_unfold user req st items Hbody Hne), Hrun.
  simpl app. rewrite Z.add_0_l.
  do 2 eexists. split_and!; [reflexivity|reflexivity| |done| |].
  - apply new_id_fresh.
  - apply buy_loop_completes in Hrun as (lines & Hl & Hreq & _).
    simpl in Hl. by rewrite Hl.
  - intros pid. simpl. by apply (buy_loop_exact_stock _ _ _ _ _ _ _ Hrun).
Qed.

(** The scenario of the specification, three pens at 20 out of five, and
    a request that names the pens twice within the stock. *)
Lemma buy_places_order_witness :
  (∃ st',
     buy alice (as_ "uu1" "" (mkBuy (Some [Item.mk "p1" 3]) "Home")) shop
     = (send 201 (Some "Order placed successfully")
             (OrderDoc "0" (Order.mk "u1" [OrderItem.mk "p1" "Pen" 20 3] 60
                                     "Home" Status.pending)), st')
     ∧ Product.quantity <$> db_products st' !! "p1" = Some 2%Z)
  ∧ (∃ order st',
       buy alice (as_ "uu1" ""
                    (mkBuy (Some [Item.mk "p1" 2; Item.mk "p1" 2]) "Home"))
           shop
       = (send 201 (Some "Order placed successfully") (OrderDoc "0" order),
          st')
       ∧ Order.totalAmount order = 80%Z
       ∧ Product.quantity <$> db_products st' !! "p1" = Some 1%Z).
Proof.
  split.
  - destruct (buy_places_order alice
                (as_ "uu1" "" (mkBuy (Some [Item.mk "p1" 3]) "Home")) shop
                [Item.mk "p1" 3] eq_refl)
      as (order & st' & Hbuy & -> & _ & _ & _ & Hdec).
    + done.
    + split; [|exact I]. exists pen. split; [reflexivity|]. simpl. lia.
    + unfold amounts_exact, quantities_exact. in_range.
    + exists st'. split; [exact Hbuy|]. by rewrite Hdec.
  - destruct (buy_places_order alice
                (as_ "uu1" ""
                   (mkBuy (Some [Item.mk "p1" 2; Item.mk "p1" 2]) "Home"))
                shop [Item.mk "p1" 2; Item.mk "p1" 2] eq_refl)
      as (order & st' & Hbuy & -> & _ & _ & _ & Hdec).
    + done.
    + split; [|split; [|exact I]].
      * exists pen. split; [reflexivity|]. simpl. lia.
      * exists (Product.set_quantity 3 pen). split; [reflexivity|].
        simpl. lia.
    + unfold amounts_exact, quantities_exact. in_range.
    + eexists _, st'. split_and!; [exact Hbuy|reflexivity|by rewrite Hdec].
Defined.

(** Beyond 2^53 the total of an order is not the sum of its lines: three
    units at 9007199254740991 are charged 27021597764222972, one less
    than three times the price. *)
Lemma buy_total_is_rounded :
  let items := [Item.mk "p1" 3] in
  let req := as_ "uu1" "" (mkBuy (Some items) "Home") in
  in_stock_in_turn (db_products depot) items
  ∧ total (db_products depot) items = 27021597764222973%Z
  ∧ (buy alice req depot).1
    = send 201 (Some "Order placed successfully")
        (OrderDoc "0" (Order.mk "u1"
                         [OrderItem.mk "p1" "Bullion" 9007199254740991 3]
                         27021597764222972 "Home" Status.pending)).
Proof.
  split_and!; [|reflexivity|by vm_compute].
  split; [|exact I]. exists bullion. split; [reflexivity|]. simpl. lia.
Qed.

(** C1 as stated fails: two lines for the same product, each within the
    stock at call time (3 ≤ 5), are refused at the second line, which is
    checked against what the first line left; no order is stored and the
    first line's decrement stays. *)
Lemma buy_repeated_product_refused :
  let items := [Item.mk "p1" 3; Item.mk "p1" 3] in
  let req := as_ "uu1" "" (mkBuy (Some items) "Home") in
  Forall (line_in_stock (db_products shop)) items
  ∧ (buy alice req shop).1 = reply 400 "Insufficient stock for Pen"
  ∧ db_orders (buy alice req shop).2 = ∅
  ∧ Product.quantity <$> db_products (buy alice req shop).2 !! "p1"
    = Some 2%Z.
Proof.
  split_and!; [|reflexivity..].
  repeat apply Forall_cons_2; [| |apply Forall_nil_2];
    (exists pen; split; [reflexivity|simpl; lia]).
Qed.

(** A purchase with no line is refused as well, although every one of
    its (no) lines is in stock. *)
Lemma buy_nothing_refused user st :
  buy user (anonymous "" (mkBuy (Some []) "Home")) st
  = (reply 400 "No products to buy", st).
Proof. reflexivity. Qed.



(** Every purchase with at least one line either stores an order or
    stops at its first failing line, in one of the two ways above. *)
Lemma buy_outcomes user (req : Req BuyBody) st items :
  products (body req) = Some items →
  items ≠ [] →
  (∃ order st',
     buy user req st
     = (send 201 (Some "Order placed successfully")
             (OrderDoc (new_id (db_orders st)) order), st'))
  ∨ (∃ pre bad post acc tot ps,
       items = pre ++ bad :: post
       ∧ buy_loop pre [] 0%Z (db_products st) = (inr (acc, tot), ps)
       ∧ (ps !! Item.productId bad = None
          ∨ ∃ product, ps !! Item.productId bad = Some product
                       ∧ (Product.quantity product < Item.quantity bad)%Z)).
Proof.
  intros Hbody Hne. rewrite (buy_unfold user req st items Hbody Hne).
  clear Hbody Hne.
  generalize (@nil OrderItem.t) 0%Z (db_products st).
  intros acc0 tot0 ps0.
  assert (Hgen : (∃ acc tot ps, buy_loop items acc0 tot0 ps0
                                = (inr (acc, tot), ps))
                 ∨ (∃ pre bad post acc tot ps,
                      items = pre ++ bad :: post
                      ∧ buy_loop pre acc0 tot0 ps0 = (inr (acc, tot), ps)
                      ∧ (ps !! Item.productId bad = None
                         ∨ ∃ product,
                             ps !! Item.productId bad = Some product
                             ∧ (Product.quantity product
                                < Item.quantity bad)%Z))).
  { revert acc0 tot0 ps0.
    induction items as [|item rest IH]; intros acc0 tot0 ps0.
    - left. by exists acc0, tot0, ps0.
    - destruct (ps0 !! Item.productId item) as [product|] eqn:Hp.
      + destruct (Z.ltb_spec (Product.quantity product) (Item.quantity item))
          as [Hlt|Hge].
        * right. exists [], item, rest, acc0, tot0, ps0.
          split_and!; [done|done|]. right. by exists product.
        * rewrite (buy_loop_step item rest acc0 tot0 ps0 product Hp Hge).
          destruct (IH (acc0 ++ [OrderItem.mk (Item.productId item)
                                   (Product.name product)
                                   (Product.price product)
                                   (Item.quantity item)])
                       (js_add tot0 (js_mul (Product.price product)
                                            (Item.quantity item)))
                       (take_stock ps0 item))
            as [Hok|(pre & bad & post & acc & tot & ps & -> & Hpre & Hbad)].
          -- by left.
          -- right. exists (item :: pre), bad, post, acc, tot, ps.
             split_and!; [done| |done].
             by rewrite (buy_loop_step item pre acc0 tot0 ps0 product Hp Hge).
      + right. exists [], item, rest, acc0, tot0, ps0.
        split_and!; [done|done|]. by left. }
  destruct Hgen as [(acc & tot & ps & Hrun)|Hstop].
  - left. rewrite Hrun. by do 2 eexists.
  - by right.
Qed.

(** The responses the purchase loop sends are 404 and 400. *)
Lemma buy_loop_sent items : ∀ acc tot ps r ps',
  buy_loop items acc tot ps = (inl r, ps') →
  statusCode r = 404 ∨ statusCode r = 400.
Proof.
  induction items as [|item rest IH]; intros acc tot ps r ps' Hrun; [done|].
  simpl in Hrun.
  destruct (ps !! Item.productId item) as [product|].
  - destruct (Product.quantity product <? Item.quantity item)%Z.
    + injection Hrun as <- _. by right.
    + by eapply IH.
  - injection Hrun as <- _. by left.
Qed.

(** ** Cancelling an order *)

(** The cancellation loop adds to each product what the lines hold of
    it, and touches nothing else; a product that is gone stays gone. *)
Lemma restore_stock_lookup lines : ∀ ps pid,
  restore_stock lines ps !! pid
  = Product.inc_quantity (held pid lines) <$> ps !! pid.
Proof.
  induction lines as [|line rest IH]; intros ps pid.
  - simpl. destruct (ps !! pid) as [product|]; [|done].
    simpl. by rewrite inc_quantity_0.
  - unfold restore_stock in *. simpl. rewrite IH.
    unfold findByIdAndUpdate. rewrite lookup_alter.
    destruct (String.eqb_spec (OrderItem.productId line) pid) as [->|Hne].
    + rewrite decide_True by done.
      destruct (ps !! pid) as [product|]; [|done].
      simpl. by rewrite inc_quantity_inc.
    + rewrite decide_False by done. by rewrite Z.add_0_l.
Qed.



Lemma findOne_order_own id user (os : gmap string Order.t) order :
  os !! id = Some order →
  Order.userId order = User._id user →
  findOne_order id (User._id user) os = Some order.
Proof.
  intros Ho Hu. unfold findOne_order. rewrite Ho, Hu.
  by rewrite String.eqb_refl.
Qed.




(** ** Sequences of calls *)

Section Sequences.
Context `{Primitives}.

(** A protected route either answers without touching the state or runs
    its handler for some account. *)
Lemma protected_cases {B} gs
    (handler : User.t → Req B → State → Response * State) req st :
  (protected gs handler req st).2 = st
  ∨ ∃ user, authenticate req st = inr user
            ∧ run_guards gs user = None
            ∧ protected gs handler req st = handler user req st.
Proof.
  unfold protected. destruct (authenticate req st) as [r|user]; [by left|].
  destruct (run_guards gs user) as [r|] eqn:Hg; [by left|].
  right. by exists user.
Qed.

Lemma protected_preserves {B} (P : State → Prop) gs
    (handler : User.t → Req B → State → Response * State) req st :
  P st →
  (∀ user, P (handler user req st).2) →
  P (protected gs handler req st).2.
Proof.
  intros Hst Hh.
  destruct (protected_cases gs handler req st) as [->|(user & _ & _ & ->)];
    [done|apply Hh].
Qed.

Lemma create_account_keeps r taken created failed req st :
  db_products (create_account r taken created failed req st).2
  = db_products st
  ∧ db_orders (create_account r taken created failed req st).2
    = db_orders st.
Proof.
  unfold create_account. destruct (body req) as [name email password].
  by destruct (findOne_email email (db_users st)).
Qed.

Lemma update_profile_keeps user req st :
  db_products (update_profile user req st).2 = db_products st
  ∧ db_orders (update_profile user req st).2 = db_orders st.
Proof. unfold update_profile. by destruct (body req). Qed.

Lemma change_password_keeps user req st :
  db_products (change_password user req st).2 = db_products st
  ∧ db_orders (change_password user req st).2 = db_orders st.
Proof. unfold change_password. by destruct (bcrypt_compare _ _). Qed.

Lemma admin_delete_user_keeps user req st :
  db_products (admin_delete_user user req st).2 = db_products st
  ∧ db_orders (admin_delete_user user req st).2 = db_orders st.
Proof. unfold admin_delete_user. by destruct (findById_user _ _). Qed.

Lemma admin_update_role_keeps user req st :
  db_products (admin_update_role user req st).2 = db_products st
  ∧ db_orders (admin_update_role user req st).2 = db_orders st.
Proof.
  unfold admin_update_role. destruct (Role.of_string _); [|done].
  by destruct (findById_user _ _).
Qed.

(** *** The stock invariant, handler by handler *)

Lemma sound_same st st' :
  db_products st' = db_products st ∧ db_orders st' = db_orders st →
  sound st → sound st'.
Proof.
  intros [Hp Ho] [Hs Hl]. unfold sound, stock_nonneg, lines_nonneg.
  by rewrite Hp, Ho.
Qed.

Lemma add_product_sound user req st :
  (0 ≤ Product.quantity (body req))%Z →
  sound st → sound (add_product user req st).2.
Proof.
  intros Hq [Hs Hl]. split; [|done].
  unfold stock_nonneg. simpl. by apply map_Forall_insert_2.
Qed.

Lemma update_product_sound user req st :
  (∀ q, ProductUpdate.quantity (body req) = Some q → (0 ≤ q)%Z) →
  sound st → sound (update_product user req st).2.
Proof.
  intros Hq [Hs Hl].
  assert (Hs' : map_Forall (λ _ product, (0 ≤ Product.quantity product)%Z)
                  (findByIdAndUpdate (params_id req)
                     (ProductUpdate.apply (body req)) (db_products st))).
  { intros id product. unfold findByIdAndUpdate. rewrite lookup_alter.
    case_decide; [|apply Hs].
    destruct (db_products st !! params_id req) as [old|] eqn:Hold; [|done].
    simpl. intros [= <-]. simpl.
    destruct (ProductUpdate.quantity (body req)) as [q|]; simpl.
    - by apply Hq.
    - by apply (Hs _ _ Hold). }
  unfold update_product. by destruct (_ !! params_id req); split.
Qed.

Lemma delete_product_sound user req st :
  sound st → sound (delete_product user req st).2.
Proof.
  intros [Hs Hl]. unfold delete_product.
  destruct (db_products st !! params_id req); [|done].
  split; [|done]. unfold stock_nonneg. simpl. by apply map_Forall_delete.
Qed.

(** The purchase loop never writes a negative quantity: it writes the
    difference only after checking that the stock covers the request. *)
Lemma buy_loop_stock items : ∀ acc tot ps res ps',
  map_Forall (λ _ product, (0 ≤ Product.quantity product)%Z) ps →
  buy_loop items acc tot ps = (res, ps') →
  map_Forall (λ _ product, (0 ≤ Product.quantity product)%Z) ps'.
Proof.
  induction items as [|item rest IH]; intros acc tot ps res ps' Hs Hrun.
  - by injection Hrun as _ <-.
  - simpl in Hrun.
    destruct (ps !! Item.productId item) as [product|] eqn:Hp;
      [|by injection Hrun as _ <-].
    destruct (Z.ltb_spec (Product.quantity product) (Item.quantity item));
      [by injection Hrun as _ <-|].
    eapply IH; [|exact Hrun].
    intros id p. unfold findByIdAndUpdate. rewrite lookup_alter.
    case_decide; [|apply Hs]. rewrite Hp. simpl. intros [= <-]. simpl.
    apply js_round_nonneg. lia.
Qed.

Lemma buy_sound user req st :
  (∀ items, products (body req) = Some items →
            Forall (λ item, (0 ≤ Item.quantity item)%Z) items) →
  sound st → sound (buy user req st).2.
Proof.
  intros Hq [Hs Hl]. unfold buy.
  destruct (products (body req)) as [[|item rest]|] eqn:Hbody; [done| |done].
  specialize (Hq _ eq_refl).
  destruct (buy_loop _ _ _ _) as [[r|[lines tot]] ps] eqn:Hrun.
  - split; [|done]. by eapply buy_loop_stock.
  - split; [by eapply buy_loop_stock|].
    unfold lines_nonneg. simpl. apply map_Forall_insert_2; [|done].
    simpl. apply buy_loop_completes in Hrun as (lines' & -> & Hreq & _).
    simpl. apply Forall_forall. intros line Hline.
    apply (list_elem_of_fmap_2 requested) in Hline. rewrite Hreq in Hline.
    by apply (proj1 (Forall_forall _ _) Hq) in Hline.
Qed.

Lemma held_nonneg pid lines :
  Forall (λ line, (0 ≤ OrderItem.quantity line)%Z) lines →
  (0 ≤ held pid lines)%Z.
Proof.
  induction 1 as [|line rest Hq _ IH]; simpl; [done|].
  destruct (String.eqb _ _); lia.
Qed.

Lemma cancel_sound user req st : sound st → sound (cancel user req st).2.
Proof.
  intros [Hs Hl]. unfold cancel, findOne_order.
  destruct (db_orders st !! params_id req) as [order|] eqn:Ho; [|done].
  destruct (String.eqb _ _); [|done].
  case_bool_decide; [done|].
  pose proof (Hl _ _ Ho) as Hlines. split.
  - intros pid product. simpl. rewrite restore_stock_lookup.
    destruct (db_products st !! pid) as [old|] eqn:Hold; [|done].
    simpl. intros [= <-]. simpl.
    pose proof (Hs _ _ Hold). pose proof (held_nonneg pid _ Hlines).
    simpl in *. lia.
  - unfold lines_nonneg. simpl. by apply map_Forall_insert_2.
Qed.

Lemma set_order_status_sound user req st :
  sound st → sound (set_order_status user req st).2.
Proof.
  intros [Hs Hl]. unfold set_order_status.
  destruct (Status.of_string (body req)) as [status|]; [|done].
  assert (Hl' : map_Forall
                  (λ _ order, Forall (λ line, (0 ≤ OrderItem.quantity line)%Z)
                                     (Order.products order))
                  (findByIdAndUpdate (params_id req)
                     (Order.set_status status) (db_orders st))).
  { intros id order. unfold findByIdAndUpdate. rewrite lookup_alter.
    case_decide; [|apply Hl].
    destruct (db_orders st !! params_id req) as [old|] eqn:Hold; [|done].
    simpl. intros [= <-]. by apply (Hl _ _ Hold). }
  by destruct (_ !! params_id req); split.
Qed.

Lemma route_sound c st :
  supplies_nonneg c → sound st → sound (route c st).2.
Proof.
  intros Hc Hst.
  destruct c; simpl in *;
    first
      [ eapply sound_same; [apply create_account_keeps|done]
      | apply protected_preserves; [done|intros user] ].
  - eapply sound_same; [apply update_profile_keeps|done].
  - eapply sound_same; [apply change_password_keeps|done].
  - by apply buy_sound.
  - by apply cancel_sound.
  - by apply add_product_sound.
  - by apply update_product_sound.
  - by apply delete_product_sound.
  - eapply sound_same; [apply admin_delete_user_keeps|done].
  - eapply sound_same; [apply admin_update_role_keeps|done].
  - by apply delete_product_sound.
  - by apply update_product_sound.
  - by apply set_order_status_sound.
  - eapply sound_same; [apply update_profile_keeps|done].
  - by apply add_product_sound.
  - by apply update_product_sound.
Qed.

(** C4, as amended.  Starting from a state in which every product's
    quantity-on-hand and every order line's quantity is non-negative, no
    sequence of calls that supply no negative quantity (products created
    or updated with a non-negative quantity or none, purchases asking
    for non-negative quantities) makes any product's quantity-on-hand
    negative.  The purchase and the cancellation keep the stock
    non-negative by themselves; the product create and update handlers
    store the quantity they are given. *)
Theorem stock_never_negative calls st :
  Forall supplies_nonneg calls →
  stock_nonneg st →
  lines_nonneg st →
  stock_nonneg (run calls st).
Proof.
  intros Hcalls Hs Hl.
  assert (Hsound : sound (run calls st)); [|by destruct Hsound].
  assert (Hst : sound st) by done. clear Hs Hl.
  revert st Hst. induction Hcalls as [|c calls Hc _ IH]; intros st Hst;
    [done|].
  apply IH. by apply route_sound.
Qed.

End Sequences.

Lemma shop_sound : stock_nonneg shop ∧ lines_nonneg shop.
Proof.
  split.
  - apply map_Forall_to_list.
    set (l := map_to_list _). vm_compute in l. subst l.
    repeat apply Forall_cons_2; [..|apply Forall_nil_2]; simpl; lia.
  - apply map_Forall_empty.
Qed.

(** Pens bought, given back, then written off by the seller. *)
Lemma stock_never_negative_witness :
  stock_nonneg
    (@run demo
       [POST_user_buy (as_ "uu1" "" (mkBuy (Some [Item.mk "p1" 3]) "Home"));
        PUT_user_order_cancel (as_ "uu1" "0" ());
        PUT_product (as_ "su2" "p1"
                       (ProductUpdate.mk None None None None (Some 0%Z)))]
       shop).
Proof.
  apply (@stock_never_negative demo).
  - repeat apply Forall_cons_2; [| |  |apply Forall_nil_2]; simpl.
    + intros items [= <-]. apply Forall_singleton. simpl. lia.
    + exact I.
    + intros q [= <-]. lia.
  - apply shop_sound.
  - apply shop_sound.
Defined.

(** C4 as stated fails: the product update of a seller stores a negative
    quantity as it is given. *)
Lemma update_stores_negative_quantity :
  let req := as_ "su2" "p1"
               (ProductUpdate.mk None None None None (Some (-5)%Z)) in
  stock_nonneg shop
  ∧ statusCode (@route demo (PUT_product req) shop).1 = 200
  ∧ Product.quantity <$> db_products (@route demo (PUT_product req) shop).2
                           !! "p1" = Some (-5)%Z
  ∧ ¬ stock_nonneg (@route demo (PUT_product req) shop).2.
Proof.
  cbv zeta. split_and!; [apply shop_sound|reflexivity|reflexivity|].
  intros Hs.
  pose proof (Hs "p1" (Product.set_quantity (-5) pen) eq_refl) as Hq.
  simpl in Hq. lia.
Qed.

(** ** Order status *)

Section Statuses.
Context `{Primitives}.

Lemma settled_same id st st' :
  db_products st' = db_products st ∧ db_orders st' = db_orders st →
  settled id st → settled id st'.
Proof. intros [_ Ho] (order & Hid & Hs). exists order. by rewrite Ho. Qed.

Lemma products_only_settled id st ps :
  settled id st → settled id (with_products ps st).
Proof. done. Qed.

Lemma buy_settled id user req st :
  settled id st → settled id (buy user req st).2.
Proof.
  intros (order & Hid & Hs). unfold buy.
  destruct (products (body req)) as [[|item rest]|]; [by exists order| |by exists order].
  destruct (buy_loop _ _ _ _) as [[r|[lines tot]] ps]; [by exists order|].
  exists order. split; [|done]. simpl. rewrite lookup_insert_ne; [done|].
  intros Heq. pose proof (new_id_fresh (db_orders st)) as Hfresh.
  rewrite Heq in Hfresh. congruence.
Qed.

Lemma cancel_settled id user req st :
  settled id st → settled id (cancel user req st).2.
Proof.
  intros (order & Hid & Hs). unfold cancel, findOne_order.
  destruct (db_orders st !! params_id req) as [found|] eqn:Hf;
    [|by exists order].
  destruct (String.eqb _ _); [|by exists order].
  case_bool_decide; [by exists order|]. unfold settled. simpl.
  destruct (decide (params_id req = id)) as [->|Hne].
  - eexists. rewrite lookup_insert_eq. split; [done|]. simpl. discriminate.
  - exists order. by rewrite lookup_insert_ne.
Qed.

Lemma set_order_status_settled id user req st :
  Status.of_string (body req) ≠ Some Status.pending →
  settled id st → settled id (set_order_status user req st).2.
Proof.
  intros Hnp (order & Hid & Hs). unfold set_order_status.
  destruct (Status.of_string (body req)) as [status|]; [|by exists order].
  assert (Hset : settled id
            (with_orders (findByIdAndUpdate (params_id req)
                            (Order.set_status status) (db_orders st)) st)).
  { unfold settled, findByIdAndUpdate. simpl. rewrite lookup_alter.
    case_decide as Heq.
    - rewrite Heq, Hid. eexists. split; [done|]. simpl. congruence.
    - by exists order. }
  by destruct (_ !! params_id req).
Qed.

Lemma add_product_settled id user req st :
  settled id st → settled id (add_product user req st).2.
Proof. done. Qed.

Lemma update_product_settled id user req st :
  settled id st → settled id (update_product user req st).2.
Proof. unfold update_product. by destruct (_ !! params_id req). Qed.

Lemma delete_product_settled id user req st :
  settled id st → settled id (delete_product user req st).2.
Proof. unfold delete_product. by destruct (_ !! params_id req). Qed.

Lemma route_settled id c st :
  ¬ asks_pending c → settled id st → settled id (route c st).2.
Proof.
  intros Hc Hst.
  destruct c; simpl in *;
    first
      [ eapply settled_same; [apply create_account_keeps|done]
      | apply protected_preserves; [done|intros user] ].
  - eapply settled_same; [apply update_profile_keeps|done].
  - eapply settled_same; [apply change_password_keeps|done].
  - by apply buy_settled.
  - by apply cancel_settled.
  - by apply add_product_settled.
  - by apply update_product_settled.
  - by apply delete_product_settled.
  - eapply settled_same; [apply admin_delete_user_keeps|done].
  - eapply settled_same; [apply admin_update_role_keeps|done].
  - by apply delete_product_settled.
  - by apply update_product_settled.
  - by apply set_order_status_settled.
  - eapply settled_same; [apply update_profile_keeps|done].
  - by apply add_product_settled.
  - by apply update_product_settled.
Qed.

(** C5, as amended.  An order whose status is confirmed, shipped,
    delivered or cancelled stays an order with one of these statuses
    through every sequence of calls in which the admin's status update
    never asks for pending: neither the owner's cancellation nor any
    other call moves it back to pending.  The admin's status update
    itself writes whichever of the five statuses it is given. *)
Theorem status_back_to_pending_only_by_admin calls st id order :
  Forall (λ c, ¬ asks_pending c) calls →
  db_orders st !! id = Some order →
  Order.status order ≠ Status.pending →
  ∃ order', db_orders (run calls st) !! id = Some order'
            ∧ Order.status order' ≠ Status.pending.
Proof.
  intros Hcalls Hid Hs.
  assert (Hst : settled id st) by (by exists order). clear Hid Hs.
  revert st Hst. induction Hcalls as [|c calls Hc _ IH]; intros st Hst;
    [done|].
  apply IH. by apply route_settled.
Qed.


End Statuses.

(** The cancelled order stays cancelled through a second cancellation
    and a purchase, and becomes shipped, not pending, when the admin
    says shipped. *)
Lemma status_back_to_pending_only_by_admin_witness :
  ∃ order',
    db_orders
      (@run demo
         [PUT_user_order_cancel (as_ "uu1" "0" ());
          POST_user_buy (as_ "uu1" "" (mkBuy (Some [Item.mk "p2" 1]) "Home"));
          PUT_admin_order_status (as_ "au3" "0" "shipped")]
         shop_after_cancel) !! "0" = Some order'
    ∧ Order.status order' ≠ Status.pending.
Proof.
  eapply (@status_back_to_pending_only_by_admin demo).
  - repeat apply Forall_cons_2; [..|apply Forall_nil_2]; simpl;
      first [tauto|discriminate].
  - reflexivity.
  - simpl. discriminate.
Defined.

(** C5 as stated fails: the admin's status update moves a cancelled
    order back to pending. *)
Lemma admin_reopens_cancelled_order :
  let req := as_ "au3" "0" "pending" in
  Order.status <$> db_orders shop_after_cancel !! "0" = Some Status.cancelled
  ∧ statusCode (@route demo (PUT_admin_order_status req) shop_after_cancel).1
    = 200
  ∧ Order.status
      <$> db_orders (@route demo (PUT_admin_order_status req)
                       shop_after_cancel).2 !! "0"
    = Some Status.pending.
Proof. cbv zeta. split_and!; reflexivity. Qed.

(** ** Accounts *)

Lemma findOne_email_Some email us :
  (∃ account, account ∈ us ∧ User.email account = email) →
  is_Some (findOne_email email us).
Proof.
  intros (account & Hin & Hemail). unfold findOne_email.
  destruct (List.find _ us) as [found|] eqn:Hfind; [by eexists|].
  apply list_elem_of_In in Hin.
  pose proof (List.find_none _ _ Hfind account Hin) as Hno. simpl in Hno.
  rewrite Hemail, String.eqb_refl in Hno. done.
Qed.

Lemma findOne_email_None email us :
  (∀ account, account ∈ us → User.email account ≠ email) →
  findOne_email email us = None.
Proof.
  intros Hnone. unfold findOne_email.
  destruct (List.find _ us) as [found|] eqn:Hfind; [|done].
  apply List.find_some in Hfind as [Hin Heq].
  apply list_elem_of_In in Hin. apply String.eqb_eq in Heq.
  by destruct (Hnone found Hin).
Qed.

Lemma findOne_email_role_spec email r us account :
  findOne_email_role email r us = Some account →
  account ∈ us ∧ User.email account = email ∧ User.role account = r.
Proof.
  unfold findOne_email_role. intros Hfind.
  apply List.find_some in Hfind as [Hin Heq].
  apply andb_prop in Heq as [Hemail Hrole].
  apply String.eqb_eq in Hemail. apply bool_decide_eq_true in Hrole.
  by rewrite list_elem_of_In.
Qed.

Lemma length_append (s1 s2 : string) :
  String.length (s1 +:+ s2) = String.length s1 + String.length s2.
Proof.
  induction s1 as [|c s1 IH]; [done|].
  change (String c s1 +:+ s2) with (String c (s1 +:+ s2)).
  simpl. by rewrite IH.
Qed.

Lemma demo_hash_not_raw password rounds salt :
  demo_hash password rounds salt ≠ password.
Proof.
  unfold demo_hash. intros Heq. apply (f_equal String.length) in Heq.
  rewrite length_append in Heq. simpl in Heq. lia.
Qed.

Section Accounts.
Context `{Primitives}.

Lemma create_account_conflict r taken created failed
    (req : Req Credentials) st :
  (∃ account, account ∈ db_users st
              ∧ User.email account = cr_email (body req)) →
  create_account r taken created failed req st = (reply 400 taken, st).
Proof.
  intros Hex. unfold create_account.
  destruct (body req) as [name email password]. simpl in Hex.
  by destruct (findOne_email_Some email (db_users st) Hex) as [found ->].
Qed.

Lemma create_account_new r taken created failed (req : Req Credentials) st :
  (∀ account, account ∈ db_users st →
              User.email account ≠ cr_email (body req)) →
  create_account r taken created failed req st
  = (send 201 (Some created)
          (Account (cr_name (body req)) (cr_email (body req)) r),
     with_users
       (db_users st ++
          [User.mk (new_user_id (db_users st)) (cr_name (body req))
                   (cr_email (body req))
                   (bcrypt_hash (cr_password (body req)) 10 (salt req)) r])
       st).
Proof.
  intros Hnone. unfold create_account.
  destruct (body req) as [name email password]. simpl in *.
  by rewrite (findOne_email_None email (db_users st) Hnone).
Qed.

(** C7.  On both registration endpoints, registering with an email that
    some account already has, character for character and whatever the
    role of that account, answers 400 with the conflict message and
    changes nothing; registering with an email no account has, whatever
    accounts have emails that differ from it only in case, stores one
    new account with the endpoint's role whose password field is the
    hash of the raw password, which is not the raw password (the hash
    primitive being one that never returns its input). *)
Theorem register_conflict_or_hash (register : Role.t * _)
    (req : Req Credentials) st :
  register ∈ [(Role.user, user_register); (Role.seller, seller_register)] →
  (∀ password salt, bcrypt_hash password 10 salt ≠ password) →
  ((∃ account, account ∈ db_users st
               ∧ User.email account = cr_email (body req)) →
   register.2 req st
   = (reply 400 "User already exists with this email", st))
  ∧ ((∀ account, account ∈ db_users st →
                 User.email account ≠ cr_email (body req)) →
     ∃ account,
       statusCode (register.2 req st).1 = 201
       ∧ (register.2 req st).2 = with_users (db_users st ++ [account]) st
       ∧ User.email account = cr_email (body req)
       ∧ User.role account = register.1
       ∧ User.password account
         = bcrypt_hash (cr_password (body req)) 10 (salt req)
       ∧ User.password account ≠ cr_password (body req)).
Proof.
  intros Hreg Hhash.
  assert (Hcases : ∃ created failed,
            register.2
            = create_account register.1
                "User already exists with this email" created failed).
  { apply elem_of_cons in Hreg as [->|Hreg]; [by do 2 eexists|].
    apply list_elem_of_singleton in Hreg as ->. by do 2 eexists. }
  destruct Hcases as (created & failed & ->). split.
  - apply create_account_conflict.
  - intros Hnone. rewrite (create_account_new _ _ _ _ req st Hnone).
    eexists. split_and!; [done|done|done|done|done|apply Hhash].
Qed.

(** The login on the user endpoint succeeds for the account
    [User.findOne({ email })] returns whenever the password matches,
    whatever the role of that account. *)
Lemma user_login_any_role (req : Req LoginBody) st account :
  findOne_email (lg_email (body req)) (db_users st) = Some account →
  bcrypt_compare (lg_password (body req)) (User.password account) = true →
  user_login req st
  = (send 200 (Some "Login successful")
          (Session (jwt_sign (User._id account) (User.role account))
                   (User.name account) (User.email account)
                   (User.role account)), st).
Proof. intros Hf Hc. unfold user_login, login_with. by rewrite Hf, Hc. Qed.

(** On each endpoint the two refusals, no account found and password
    mismatch, are the same response. *)
Lemma login_refusals_identical found invalid welcome
    (req : Req LoginBody) st :
  statusCode (login_with found invalid welcome req st).1 ≠ 200 →
  login_with found invalid welcome req st = (reply 400 invalid, st).
Proof.
  unfold login_with. destruct found as [account|]; [|done].
  by destruct (bcrypt_compare _ _).
Qed.

(** A login on the seller or the admin endpoint succeeds only for an
    account of that role. *)
Lemma scoped_login_role (req : Req LoginBody) st token name email r :
  (seller_login req st
   = (send 200 (Some "Seller login successful") (Session token name email r),
      st) → r = Role.seller)
  ∧ (admin_login req st
     = (send 200 (Some "Admin login successful") (Session token name email r),
        st) → r = Role.admin).
Proof.
  unfold seller_login, admin_login, login_with. split.
  - destruct (findOne_email_role _ _ _) as [account|] eqn:Hf; [|done].
    apply findOne_email_role_spec in Hf as (_ & _ & Hr).
    destruct (bcrypt_compare _ _); [|done]. intros [= _ _ _ <-]. done.
  - destruct (findOne_email_role _ _ _) as [account|] eqn:Hf; [|done].
    apply findOne_email_role_spec in Hf as (_ & _ & Hr).
    destruct (bcrypt_compare _ _); [|done]. intros [= _ _ _ <-]. done.
Qed.

End Accounts.

(** An email taken by the admin is refused on the seller endpoint; an
    email that differs in case from a taken one is accepted. *)
Lemma register_conflict_or_hash_witness :
  @seller_register demo
    (anonymous "" (mkCredentials "Eve" "root@x.com" "pw")) shop
  = (reply 400 "User already exists with this email", shop)
  ∧ ∃ account,
      (@user_register demo
         (anonymous "" (mkCredentials "Al" "A@x.com" "secret")) shop).2
      = with_users (db_users shop ++ [account]) shop
      ∧ User.password account = "$2a$10$secret"
      ∧ User.password account ≠ "secret".
Proof.
  split.
  - apply (@register_conflict_or_hash demo
             (Role.seller, @seller_register demo)).
    + right. left.
    + intros. apply demo_hash_not_raw.
    + exists root. split; [|reflexivity]. do 2 right. left.
  - destruct (@register_conflict_or_hash demo
                (Role.user, @user_register demo)
                (anonymous "" (mkCredentials "Al" "A@x.com" "secret")) shop)
      as [_ Hnew].
    + left.
    + intros. apply demo_hash_not_raw.
    + destruct Hnew as (account & _ & Hst & _ & _ & Hpw & Hneq).
      * intros account Hin.
        repeat (apply elem_of_cons in Hin as [->|Hin]; [discriminate|]).
        by apply elem_of_nil in Hin.
      * exists account. by split_and!.
Defined.

(** C6 fails on the user endpoint: POST /api/user/login looks the
    account up by email alone, so the admin's credentials are accepted
    there although no account of role user has that email, while the
    seller endpoint refuses the same credentials. *)
Theorem user_login_not_role_scoped :
  let req := anonymous "" (mkLogin "root@x.com" "toor") in
  findOne_email_role "root@x.com" Role.user (db_users shop) = None
  ∧ @user_login demo req shop
    = (send 200 (Some "Login successful")
            (Session "au3" "Root" "root@x.com" Role.admin), shop)
  ∧ @seller_login demo req shop
    = (reply 400 "Invalid seller credentials", shop).
Proof. cbv zeta. split_and!; reflexivity. Qed.

(** ** Searching the catalog *)

Lemma parse_plain pat :
  plain pat → parse_regex pat = Some (Lit <$> list_ascii_of_string pat).
Proof.
  unfold plain. induction pat as [|c pat IH]; intros Hp; [done|].
  simpl in *. apply Forall_cons in Hp as [Hc Hp].
  destruct (Ascii.eqb_spec c ".") as [->|_]; [done|].
  by rewrite Hc, (IH Hp).
Qed.

Lemma match_here_lits pat : ∀ s,
  match_here (Lit <$> list_ascii_of_string pat) s
  = String.prefix (lower pat) (lower s).
Proof.
  induction pat as [|c pat IH]; intros s; [by destruct s|].
  destruct s as [|d s]; [done|]. simpl. rewrite IH.
  destruct (Ascii.eqb_spec (to_lower c) (to_lower d)) as [Heq|Hne];
    destruct (ascii_dec (to_lower c) (to_lower d)); done.
Qed.

Lemma regex_search_lits pat s :
  regex_search (Lit <$> list_ascii_of_string pat) s = ci_substring pat s.
Proof.
  unfold ci_substring. induction s as [|d s IH].
  - simpl. by rewrite match_here_lits.
  - cbn [regex_search lower occurs_in]. rewrite IH.
    by rewrite match_here_lits.
Qed.

(** For a pattern without metacharacters the filter is the literal
    substring match, up to case. *)
Lemma plain_pattern_literal pat atoms s :
  plain pat → parse_regex pat = Some atoms →
  regex_search atoms s = ci_substring pat s.
Proof.
  intros Hp Hparse. rewrite (parse_plain pat Hp) in Hparse.
  injection Hparse as <-. apply regex_search_lits.
Qed.



Section Search.
Context `{RegexEngine}.


Lemma compile_pattern_refused raw :
  compile_pattern
    (match raw with
     | Some p => if truthy p then Some p else None
     | None => None
     end) = None
  ↔ ∃ p, raw = Some p ∧ truthy p = true ∧ regex_i p = None.
Proof.
  unfold compile_pattern. split.
  - destruct raw as [p|]; [|done].
    destruct (truthy p) eqn:Ht; [|done].
    destruct (regex_i p) eqn:Hre; [done|]. intros _. by exists p.
  - intros (p & -> & -> & ->). done.
Qed.

Lemma compile_inv f c :
  compile f = Some c →
  ∃ name_re color_re,
    compile_pattern (f_name f) = Some name_re
    ∧ compile_pattern (f_color f) = Some color_re
    ∧ c = mkCompiled name_re (f_price_gte f) (f_price_lte f) color_re.
Proof.
  unfold compile.
  destruct (compile_pattern (f_name f)) as [name_re|]; [|done].
  destruct (compile_pattern (f_color f)) as [color_re|]; [|done].
  simpl. intros [= <-]. by exists name_re, color_re.
Qed.

(** The query throws exactly when one of its two texts is not a regular
    expression. *)
Lemma compile_refused q :
  compile (build_filter q) = None ↔ invalid_pattern q.
Proof.
  unfold compile, invalid_pattern. cbn [build_filter f_name f_color].
  split.
  - destruct (compile_pattern (match q_name q with
                               | Some p => if truthy p then Some p else None
                               | None => None
                               end)) as [name_re|] eqn:Hname.
    + destruct (compile_pattern (match q_color q with
                                 | Some p => if truthy p then Some p else None
                                 | None => None
                                 end)) as [color_re|] eqn:Hcolor; [done|].
      intros _. apply compile_pattern_refused in Hcolor as (p & Hp & Ht & Hre).
      exists p. by split_and!; [right|..].
    + intros _. apply compile_pattern_refused in Hname as (p & Hp & Ht & Hre).
      exists p. by split_and!; [left|..].
  - intros (p & [Hp|Hp] & Ht & Hre).
    + rewrite (proj2 (compile_pattern_refused (q_name q))); [done|].
      by exists p.
    + rewrite (proj2 (compile_pattern_refused (q_color q))) by (by exists p).
      by destruct (compile_pattern _).
Qed.


Lemma search_refused q st :
  invalid_pattern q → search q st = reply 500 "Error searching products".
Proof.
  intros Hinv. apply compile_refused in Hinv.
  unfold search, find_products. by rewrite Hinv.
Qed.




End Search.



(** ** Who may call what *)

Section Access.
Context `{Primitives}.

Lemma authenticate_sent {B} (req : Req B) st r :
  authenticate req st = inl r → statusCode r = 401.
Proof.
  unfold authenticate.
  destruct (replace_first _ _ <$> authorization req) as [token|];
    [|by intros [= <-]].
  destruct (truthy token); [|by intros [= <-]].
  destruct (jwt_verify token) as [[userId role]|]; [|by intros [= <-]].
  destruct (findById_user userId (db_users st)); [done|by intros [= <-]].
Qed.

Lemma buy_codes user req st :
  statusCode (buy user req st).1 = 400
  ∨ statusCode (buy user req st).1 = 404
  ∨ statusCode (buy user req st).1 = 201.
Proof.
  unfold buy.
  destruct (products (body req)) as [[|item rest]|]; [by left| |by left].
  destruct (buy_loop _ _ _ _) as [[r|[lines tot]] ps] eqn:Hrun.
  - destruct (buy_loop_sent _ _ _ _ _ _ Hrun); simpl; tauto.
  - by right; right.
Qed.

Lemma cancel_codes user req st :
  statusCode (cancel user req st).1 = 404
  ∨ statusCode (cancel user req st).1 = 400
  ∨ statusCode (cancel user req st).1 = 200.
Proof.
  unfold cancel. destruct (findOne_order _ _ _) as [order|]; [|by left].
  case_bool_decide; [by right; left|by right; right].
Qed.

Lemma create_account_codes r taken created failed req st :
  statusCode (create_account r taken created failed req st).1 = 400
  ∨ statusCode (create_account r taken created failed req st).1 = 201.
Proof.
  unfold create_account. destruct (body req) as [name email password].
  destruct (findOne_email email (db_users st)); [by left|by right].
Qed.

(** C9.  POST /api/admin/create has no middleware in front of it: its
    answer does not depend on the Authorization header, it is never 401
    nor 403, and whenever no account has the given email it answers 201
    and stores an account with that email whose role is admin. *)
Theorem admin_create_open (req : Req Credentials) st :
  statusCode (route (POST_admin_create req) st).1 ≠ 401
  ∧ statusCode (route (POST_admin_create req) st).1 ≠ 403
  ∧ (∀ header,
       route (POST_admin_create
                (mkReq header (params_id req) (body req) (salt req))) st
       = route (POST_admin_create req) st)
  ∧ ((∀ account, account ∈ db_users st →
                 User.email account ≠ cr_email (body req)) →
     ∃ account,
       route (POST_admin_create req) st
       = (send 201 (Some "Admin created successfully")
               (Account (cr_name (body req)) (cr_email (body req))
                        Role.admin),
          with_users (db_users st ++ [account]) st)
       ∧ User.email account = cr_email (body req)
       ∧ User.role account = Role.admin).
Proof.
  simpl. unfold admin_create.
  pose proof (create_account_codes Role.admin
                "Admin already exists with this email"
                "Admin created successfully" "Error creating admin"
                req st) as Hcodes.
  split_and!.
  - destruct Hcodes as [-> | ->]; discriminate.
  - destruct Hcodes as [-> | ->]; discriminate.
  - done.
  - intros Hnone. rewrite (create_account_new _ _ _ _ req st Hnone).
    by eexists.
Qed.

(** C10.  POST /api/user/buy and PUT /api/user/order/:id/cancel run
    their handler for whichever account the token resolves to: they
    never answer 403, whatever the role of the account, although the
    middleware has a guard [isUser] that refuses every account whose
    role is not user. *)
Theorem buy_cancel_any_role (breq : Req BuyBody) (creq : Req unit) st :
  statusCode (route (POST_user_buy breq) st).1 ≠ 403
  ∧ statusCode (route (PUT_user_order_cancel creq) st).1 ≠ 403
  ∧ (∀ user, authenticate breq st = inr user →
             route (POST_user_buy breq) st = buy user breq st)
  ∧ (∀ user, authenticate creq st = inr user →
             route (PUT_user_order_cancel creq) st = cancel user creq st)
  ∧ (∀ user, User.role user ≠ Role.user →
             isUser user = Some (reply 403 "Access denied. User only.")).
Proof.
  simpl. unfold protected. split_and!.
  - destruct (authenticate breq st) as [r|user] eqn:Hauth.
    + simpl. by rewrite (authenticate_sent _ _ _ Hauth).
    + simpl. destruct (buy_codes user breq st) as [-> | [-> | ->]];
        discriminate.
  - destruct (authenticate creq st) as [r|user] eqn:Hauth.
    + simpl. by rewrite (authenticate_sent _ _ _ Hauth).
    + simpl. destruct (cancel_codes user creq st) as [-> | [-> | ->]];
        discriminate.
  - by intros user ->.
  - by intros user ->.
  - intros user Hrole. unfold isUser. by rewrite bool_decide_true.
Qed.

End Access.

(** Anyone, with no token at all, creates an admin. *)
Lemma admin_create_open_witness :
  ∃ account,
    @route demo
      (POST_admin_create
         (anonymous "" (mkCredentials "Mallory" "m@x.com" "pw"))) shop
    = (send 201 (Some "Admin created successfully")
            (Account "Mallory" "m@x.com" Role.admin),
       with_users (db_users shop ++ [account]) shop)
    ∧ User.role account = Role.admin.
Proof.
  destruct (@admin_create_open demo
              (anonymous "" (mkCredentials "Mallory" "m@x.com" "pw")) shop)
    as (_ & _ & _ & Hnew).
  destruct Hnew as (account & Hroute & _ & Hrole).
  - intros account Hin.
    repeat (apply elem_of_cons in Hin as [->|Hin]; [discriminate|]).
    by apply elem_of_nil in Hin.
  - by exists account.
Defined.

(** The seller buys a bottle of ink and the admin cancels an order of
    theirs that does not exist: both reach the handler. *)
Lemma buy_cancel_any_role_witness :
  statusCode
    (@route demo
       (POST_user_buy (as_ "su2" "" (mkBuy (Some [Item.mk "p2" 1]) "Office")))
       shop).1 = 201
  ∧ @route demo (PUT_user_order_cancel (as_ "au3" "0" ())) shop
    = (reply 404 "Order not found", shop)
  ∧ @isUser sam = Some (reply 403 "Access denied. User only.").
Proof.
  destruct (@buy_cancel_any_role demo
              (as_ "su2" "" (mkBuy (Some [Item.mk "p2" 1]) "Office"))
              (as_ "au3" "0" ()) shop)
    as (_ & _ & Hbuy & Hcancel & Hguard).
  split_and!.
  - by rewrite (Hbuy sam eq_refl).
  - by rewrite (Hcancel root eq_refl).
  - by apply Hguard.
Defined.

(** * Further properties of the handlers *)

(** ** Access control, route by route *)

Section AccessControl.
Context `{Primitives}.

Lemma create_account_open r taken created failed req st :
  statusCode (create_account r taken created failed req st).1 ≠ 401
  ∧ statusCode (create_account r taken created failed req st).1 ≠ 403.
Proof.
  destruct (create_account_codes r taken created failed req st) as [-> | ->];
    split; discriminate.
Qed.

(** No handler answers 401 or 403 by itself: these come from the
    middleware alone. *)
Lemma handlers_never_refuse_access user :
  (∀ req st, statusCode (update_profile user req st).1 ≠ 401
             ∧ statusCode (update_profile user req st).1 ≠ 403)
  ∧ (∀ req st, statusCode (change_password user req st).1 ≠ 401
               ∧ statusCode (change_password user req st).1 ≠ 403)
  ∧ (∀ req st, statusCode (buy user req st).1 ≠ 401
               ∧ statusCode (buy user req st).1 ≠ 403)
  ∧ (∀ req st, statusCode (cancel user req st).1 ≠ 401
               ∧ statusCode (cancel user req st).1 ≠ 403)
  ∧ (∀ req st, statusCode (add_product user req st).1 ≠ 401
               ∧ statusCode (add_product user req st).1 ≠ 403)
  ∧ (∀ req st, statusCode (update_product user req st).1 ≠ 401
               ∧ statusCode (update_product user req st).1 ≠ 403)
  ∧ (∀ req st, statusCode (delete_product user req st).1 ≠ 401
               ∧ statusCode (delete_product user req st).1 ≠ 403)
  ∧ (∀ req st, statusCode (admin_delete_user user req st).1 ≠ 401
               ∧ statusCode (admin_delete_user user req st).1 ≠ 403)
  ∧ (∀ req st, statusCode (admin_update_role user req st).1 ≠ 401
               ∧ statusCode (admin_update_role user req st).1 ≠ 403)
  ∧ (∀ req st, statusCode (set_order_status user req st).1 ≠ 401
               ∧ statusCode (set_order_status user req st).1 ≠ 403).
Proof.
  split_and!; intros req st.
  - unfold update_profile. destruct (body req). split; discriminate.
  - unfold change_password. destruct (bcrypt_compare _ _); split; discriminate.
  - destruct (buy_codes user req st) as [-> | [-> | ->]]; split; discriminate.
  - destruct (cancel_codes user req st) as [-> | [-> | ->]];
      split; discriminate.
  - unfold add_product. simpl. split; discriminate.
  - unfold update_product. destruct (_ !! params_id req); split; discriminate.
  - unfold delete_product. destruct (_ !! params_id req); split; discriminate.
  - unfold admin_delete_user. destruct (findById_user _ _);
      split; discriminate.
  - unfold admin_update_role. destruct (Role.of_string _);
      [destruct (findById_user _ _)|]; split; discriminate.
  - unfold set_order_status. destruct (Status.of_string _);
      [destruct (_ !! params_id req)|]; split; discriminate.
Qed.

Lemma protected_refused {B} gs
    (handler : User.t → Req B → State → Response * State) req st r :
  authenticate req st = inl r →
  protected gs handler req st = (r, st) ∧ statusCode r = 401.
Proof.
  intros Hauth. unfold protected. rewrite Hauth.
  split; [done|]. by eapply authenticate_sent.
Qed.

(** X1.  Access control is total and exact on every route that writes.  A
    route registered without [authenticate] never answers 401 or 403.
    On every other route a request that [authenticate] refuses gets its
    401 and changes nothing; a request of an account whose role the
    route does not let through gets 403 and changes nothing; a request
    of an account whose role it lets through gets neither 401 nor 403. *)
Theorem access_control_total c st :
  (caller c st = None →
   statusCode (route c st).1 ≠ 401 ∧ statusCode (route c st).1 ≠ 403)
  ∧ (∀ r, caller c st = Some (inl r) →
          route c st = (r, st) ∧ statusCode r = 401)
  ∧ (∀ user, caller c st = Some (inr user) →
       (User.role user ∉ allowed c →
        statusCode (route c st).1 = 403 ∧ (route c st).2 = st)
       ∧ (User.role user ∈ allowed c →
          statusCode (route c st).1 ≠ 401
          ∧ statusCode (route c st).1 ≠ 403)).
Proof.
  split_and!.
  - destruct c; try discriminate; intros _; apply create_account_open.
  - intros r. destruct c; try discriminate; intros [= Hauth];
      by apply protected_refused.
  - intros user.
    pose proof (handlers_never_refuse_access user)
      as (Hpf & Hpw & Hbuy & Hcan & Hadd & Hupd & Hdel & Hdu & Hur & Hos).
    destruct c; try discriminate; intros [= Hauth]; simpl;
      unfold protected; rewrite Hauth; simpl;
      unfold isAdmin, isAdminOrSeller;
      (split; [intros Hout|intros Hin]);
      destruct (User.role user) eqn:Hrole; simpl;
      try done;
      try (exfalso; apply Hout; by repeat constructor);
      try (exfalso;
           repeat (apply elem_of_cons in Hin as [Hin|Hin]; [discriminate|]);
           by apply elem_of_nil in Hin).
Qed.

End AccessControl.

(** An ordinary user is turned away from the admin's product deletion,
    the seller may update a product, and a call without a token is
    refused before anything happens. *)
Lemma access_control_total_witness :
  @route demo (DELETE_product (as_ "uu1" "p1" ())) shop
  = (reply 403 "Access denied. Admin only.", shop)
  ∧ statusCode
      (@route demo
         (PUT_product (as_ "su2" "p1"
                         (ProductUpdate.mk None (Some 25%Z) None None None)))
         shop).1 ≠ 403
  ∧ @route demo (DELETE_product (anonymous "p1" ())) shop
    = (reply 401 "Access denied. No token provided.", shop).
Proof.
  split_and!.
  - destruct (@access_control_total demo
                (DELETE_product (as_ "uu1" "p1" ())) shop)
      as (_ & _ & Hrole).
    destruct (Hrole alice eq_refl) as [Hout _].
    destruct Hout as [Hcode Hst].
    + intros Hin. apply list_elem_of_singleton in Hin. discriminate.
    + reflexivity.
  - destruct (@access_control_total demo
                (PUT_product (as_ "su2" "p1"
                                (ProductUpdate.mk None (Some 25%Z) None None
                                                  None))) shop)
      as (_ & _ & Hrole).
    destruct (Hrole sam eq_refl) as [_ Hin].
    apply Hin. right. left.
  - by apply (@access_control_total demo
                (DELETE_product (anonymous "p1" ())) shop).
Defined.

(** ** The account collection *)

Lemma update_user_fmap {A} (g : User.t → A) id f us :
  (∀ u, g (f u) = g u) → g <$> update_user id f us = g <$> us.
Proof.
  intros Hg. induction us as [|u us IH]; [done|]. simpl.
  destruct (String.eqb _ _); rewrite !fmap_cons; [by rewrite Hg|by rewrite IH].
Qed.

Lemma delete_user_sublist id us : delete_user id us `sublist_of` us.
Proof.
  induction us as [|u us IH]; [done|]. simpl.
  destruct (String.eqb _ _); [by apply sublist_cons|by apply sublist_skip].
Qed.

Lemma findById_user_spec id us u :
  findById_user id us = Some u → u ∈ us ∧ User._id u = id.
Proof.
  unfold findById_user. intros Hf. apply List.find_some in Hf as [Hin Heq].
  apply String.eqb_eq in Heq. by rewrite list_elem_of_In.
Qed.

(** With distinct ids, the lookup by id finds the account itself. *)
Lemma findById_user_NoDup us u :
  NoDup (User._id <$> us) → u ∈ us →
  findById_user (User._id u) us = Some u.
Proof.
  induction us as [|v us IH]; intros Hnd Hin; [by apply elem_of_nil in Hin|].
  rewrite fmap_cons in Hnd. apply NoDup_cons in Hnd as [Hv Hnd].
  unfold findById_user. simpl.
  destruct (String.eqb_spec (User._id v) (User._id u)) as [Heq|Hne].
  - apply elem_of_cons in Hin as [->|Hin]; [done|].
    destruct Hv. rewrite Heq. by apply list_elem_of_fmap_2.
  - apply elem_of_cons in Hin as [->|Hin]; [done|]. by apply IH.
Qed.

Lemma findById_user_update id f us u :
  (∀ v, User._id (f v) = User._id v) →
  findById_user id us = Some u →
  findById_user id (update_user id f us) = Some (f u).
Proof.
  intros Hf. unfold findById_user.
  induction us as [|v us IH]; [done|]. simpl.
  destruct (String.eqb_spec (User._id v) id) as [Heq|Hne]; simpl.
  - intros [= <-]. by rewrite Hf, <- Heq, String.eqb_refl.
  - intros Hfind. destruct (String.eqb_spec (User._id v) id); [done|].
    by apply IH.
Qed.

Lemma findById_user_delete id us :
  NoDup (User._id <$> us) → findById_user id (delete_user id us) = None.
Proof.
  unfold findById_user. induction us as [|v us IH]; intros Hnd; [done|].
  rewrite fmap_cons in Hnd. apply NoDup_cons in Hnd as [Hv Hnd]. simpl.
  destruct (String.eqb_spec (User._id v) id) as [Heq|Hne].
  - destruct (List.find _ us) as [w|] eqn:Hfind; [|done].
    apply List.find_some in Hfind as [Hin Hw].
    apply String.eqb_eq in Hw. destruct Hv. rewrite Heq, <- Hw.
    apply list_elem_of_fmap_2. by apply list_elem_of_In.
  - simpl. destruct (String.eqb_spec (User._id v) id); [done|]. by apply IH.
Qed.

Lemma update_user_other id f us u :
  u ∈ us → User._id u ≠ id → u ∈ update_user id f us.
Proof.
  intros Hin Hne. induction us as [|v us IH]; [done|]. simpl.
  destruct (String.eqb_spec (User._id v) id) as [Heq|Hv].
  - apply elem_of_cons in Hin as [->|Hin]; [done|]. by right.
  - apply elem_of_cons in Hin as [->|Hin]; [by left|]. right. by apply IH.
Qed.

Lemma update_user_hit id f us u :
  findById_user id us = Some u → f u ∈ update_user id f us.
Proof.
  unfold findById_user. induction us as [|v us IH]; [done|]. simpl.
  destruct (String.eqb (User._id v) id).
  - intros [= <-]. by left.
  - intros Hfind. right. by apply IH.
Qed.

Lemma find_snoc {A} (f : A → bool) l x :
  (∀ y, y ∈ l → f y = false) → f x = true →
  List.find f (l ++ [x]) = Some x.
Proof.
  intros Hl Hx. induction l as [|y l IH]; simpl; [by rewrite Hx|].
  rewrite (Hl y) by left. apply IH. intros z Hz. apply Hl. by right.
Qed.

Section AccountCollection.
Context `{Primitives}.

(** What a call does to the account collection: nothing, or it appends
    an account with a new id and an email no account had, or it rewrites
    one account, keeping its id (and, but for a profile update, its
    email), or it deletes an account. *)
Lemma route_users c st :
  db_users (route c st).2 = db_users st
  ∨ (∃ u, db_users (route c st).2 = db_users st ++ [u]
          ∧ User._id u = new_user_id (db_users st)
          ∧ findOne_email (User.email u) (db_users st) = None)
  ∨ (∃ id f, db_users (route c st).2 = update_user id f (db_users st)
             ∧ (∀ u, User._id (f u) = User._id u)
             ∧ (¬ edits_profile c → ∀ u, User.email (f u) = User.email u))
  ∨ (∃ id, db_users (route c st).2 = delete_user id (db_users st)).
Proof.
  assert (Hcreate : ∀ r taken created failed req,
    db_users (create_account r taken created failed req st).2 = db_users st
    ∨ (∃ u, db_users (create_account r taken created failed req st).2
            = db_users st ++ [u]
            ∧ User._id u = new_user_id (db_users st)
            ∧ findOne_email (User.email u) (db_users st) = None)).
  { intros r taken created failed req. unfold create_account.
    destruct (body req) as [name email password].
    destruct (findOne_email email (db_users st)) eqn:Hfind; [by left|].
    right. by eexists. }
  pose (P := λ (c : Call) (st' : State),
    db_users st' = db_users st
    ∨ (∃ u, db_users st' = db_users st ++ [u]
            ∧ User._id u = new_user_id (db_users st)
            ∧ findOne_email (User.email u) (db_users st) = None)
    ∨ (∃ id f, db_users st' = update_user id f (db_users st)
               ∧ (∀ u, User._id (f u) = User._id u)
               ∧ (¬ edits_profile c → ∀ u, User.email (f u) = User.email u))
    ∨ (∃ id, db_users st' = delete_user id (db_users st))).
  change (P c (route c st).2).
  assert (Hsame : ∀ c, P c st) by (by left).
  destruct c; simpl route;
    first
      [ destruct (Hcreate Role.user "User already exists with this email"
                    "User registered successfully" "Error registering user"
                    req) as [?|?]; [by left|by right; left]
      | destruct (Hcreate Role.seller "User already exists with this email"
                    "Seller registered successfully"
                    "Error registering seller" req) as [?|?];
          [by left|by right; left]
      | destruct (Hcreate Role.admin "Admin already exists with this email"
                    "Admin created successfully" "Error creating admin"
                    req) as [?|?]; [by left|by right; left]
      | apply protected_preserves; [apply Hsame|intros user] ].
  - unfold update_profile. destruct (body req) as [name email].
    right; right; left. exists (User._id user), (User.set_profile name email).
    split_and!; [done|done|]. intros Hne. by destruct Hne.
  - unfold change_password. destruct (bcrypt_compare _ _); [|by left].
    right; right; left. by eexists _, _.
  - left. unfold buy.
    destruct (products (body req)) as [[|item rest]|]; [done| |done].
    by destruct (buy_loop _ _ _ _) as [[r|[lines tot]] ps].
  - left. unfold cancel. destruct (findOne_order _ _ _); [|done].
    by case_bool_decide.
  - by left.
  - left. unfold update_product. by destruct (_ !! params_id req).
  - left. unfold delete_product. by destruct (_ !! params_id req).
  - unfold admin_delete_user. destruct (findById_user _ _); [|by left].
    do 3 right. by eexists.
  - unfold admin_update_role. destruct (Role.of_string _); [|by left].
    destruct (findById_user _ _); [|by left].
    right; right; left. by eexists _, _.
  - left. unfold delete_product. by destruct (_ !! params_id req).
  - left. unfold update_product. by destruct (_ !! params_id req).
  - left. unfold set_order_status. destruct (Status.of_string _); [|done].
    by destruct (_ !! params_id req).
  - unfold update_profile. destruct (body req) as [name email].
    right; right; left. exists (User._id user), (User.set_profile name email).
    split_and!; [done|done|]. intros Hne. by destruct Hne.
  - by left.
  - left. unfold update_product. by destruct (_ !! params_id req).
Qed.

(** X2.  Account ids stay pairwise distinct through every sequence of
    calls. *)
Theorem account_ids_stay_distinct calls st :
  NoDup (User._id <$> db_users st) →
  NoDup (User._id <$> db_users (run calls st)).
Proof.
  revert st. induction calls as [|c calls IH]; intros st Hnd; [done|].
  apply IH.
  destruct (route_users c st)
    as [-> | [(u & -> & Hid & _) | [(id & f & -> & Hf & _) | (id & ->)]]].
  - done.
  - rewrite fmap_app. apply NoDup_app. split_and!; [done| |apply NoDup_singleton].
    intros x Hx Hin. apply list_elem_of_singleton in Hin. subst x.
    rewrite Hid in Hx. by apply (infinite_is_fresh (User._id <$> db_users st)).
  - by rewrite (update_user_fmap User._id id f _ Hf).
  - eapply sublist_NoDup; [exact Hnd|].
    apply fmap_sublist, delete_user_sublist.
Qed.

(** X3.  Emails stay pairwise distinct through every sequence of calls that
    holds no profile update: registration and admin creation refuse an
    email that is taken, and the other handlers leave emails alone. *)
Theorem emails_stay_distinct_without_profile_updates calls st :
  Forall (λ c, ¬ edits_profile c) calls →
  NoDup (User.email <$> db_users st) →
  NoDup (User.email <$> db_users (run calls st)).
Proof.
  intros Hcalls. revert st.
  induction Hcalls as [|c calls Hc _ IH]; intros st Hnd; [done|].
  apply IH.
  destruct (route_users c st)
    as [-> | [(u & -> & _ & Hfree) | [(id & f & -> & _ & Hf) | (id & ->)]]].
  - done.
  - rewrite fmap_app. apply NoDup_app. split_and!; [done| |apply NoDup_singleton].
    intros x Hx Hin. apply list_elem_of_singleton in Hin. subst x.
    apply list_elem_of_fmap in Hx as (v & Hv & Hin).
    assert (Hsome : is_Some (findOne_email (User.email u) (db_users st)))
      by (apply findOne_email_Some; by exists v).
    rewrite Hfree in Hsome. by destruct Hsome.
  - by rewrite (update_user_fmap User.email id f _ (Hf Hc)).
  - eapply sublist_NoDup; [exact Hnd|].
    apply fmap_sublist, delete_user_sublist.
Qed.

End AccountCollection.

Lemma shop_ids_distinct : NoDup (User._id <$> db_users shop).
Proof. apply (bool_decide_unpack _). by vm_compute. Qed.

Lemma shop_emails_distinct : NoDup (User.email <$> db_users shop).
Proof. apply (bool_decide_unpack _). by vm_compute. Qed.

(** A registration, the deletion of the seller by the admin, another
    registration. *)
Lemma account_ids_stay_distinct_witness :
  NoDup
    (User._id
       <$> db_users
             (@run demo
                [POST_user_register
                   (anonymous "" (mkCredentials "Bob" "b@x.com" "pw"));
                 DELETE_admin_user (as_ "au3" "u2" ());
                 POST_seller_register
                   (anonymous "" (mkCredentials "Sal" "sal@x.com" "pw"))]
                shop)).
Proof. apply (@account_ids_stay_distinct demo), shop_ids_distinct. Defined.

(** A registration with a free email, one with a taken email, a change
    of role. *)
Lemma emails_stay_distinct_without_profile_updates_witness :
  NoDup
    (User.email
       <$> db_users
             (@run demo
                [POST_user_register
                   (anonymous "" (mkCredentials "Bob" "b@x.com" "pw"));
                 POST_seller_register
                   (anonymous "" (mkCredentials "Al" "a@x.com" "pw"));
                 PUT_admin_user_role (as_ "au3" "u1" "seller")]
                shop)).
Proof.
  apply (@emails_stay_distinct_without_profile_updates demo).
  - repeat apply Forall_cons_2; [..|apply Forall_nil_2]; simpl; tauto.
  - apply shop_emails_distinct.
Defined.

(** ** Profile, password, role *)

(** X4.  A profile update answers 200 whatever name and email it is given and
    changes nothing but names and emails: the ids, password hashes and
    roles of all accounts, the products and the orders stay as they
    were. *)
Theorem update_profile_keeps_credentials user (req : Req ProfileBody) st :
  statusCode (update_profile user req st).1 = 200
  ∧ credentials <$> db_users (update_profile user req st).2
    = credentials <$> db_users st
  ∧ db_products (update_profile user req st).2 = db_products st
  ∧ db_orders (update_profile user req st).2 = db_orders st.
Proof.
  unfold update_profile. destruct (body req) as [name email]. simpl.
  split_and!; [done| |done|done].
  by apply update_user_fmap.
Qed.

(** X5.  A profile update does not look whether the email is in use: an
    account that takes the email of another account gets it, and the
    two accounts then share it. *)
Theorem update_profile_shares_email user other (req : Req ProfileBody) st :
  findById_user (User._id user) (db_users st) = Some user →
  other ∈ db_users st →
  User._id other ≠ User._id user →
  pf_email (body req) = User.email other →
  ∃ updated,
    updated ∈ db_users (update_profile user req st).2
    ∧ other ∈ db_users (update_profile user req st).2
    ∧ User._id updated = User._id user
    ∧ User._id updated ≠ User._id other
    ∧ User.email updated = User.email other.
Proof.
  intros Hfind Hother Hne Hemail. unfold update_profile.
  destruct (body req) as [name email]. simpl in *. subst email.
  exists (User.set_profile name (User.email other) user). split_and!.
  - by apply update_user_hit.
  - by apply update_user_other.
  - done.
  - simpl. congruence.
  - done.
Qed.

(** Alice takes the seller's email. *)
Lemma update_profile_shares_email_witness :
  ∃ updated,
    updated
    ∈ db_users (update_profile alice
                  (as_ "uu1" "" (mkProfile "Alice" "sam@x.com")) shop).2
    ∧ sam ∈ db_users (update_profile alice
                        (as_ "uu1" "" (mkProfile "Alice" "sam@x.com"))
                        shop).2
    ∧ User._id updated = "u1"
    ∧ User.email updated = "sam@x.com".
Proof.
  destruct (update_profile_shares_email alice sam
              (as_ "uu1" "" (mkProfile "Alice" "sam@x.com")) shop)
    as (updated & Hin & Hsam & Hid & _ & Hemail).
  - reflexivity.
  - right. left.
  - discriminate.
  - reflexivity.
  - by exists updated.
Defined.

Section Tokens.
Context `{Primitives}.

(** The account a token resolves to, given what the token verifies to. *)
Lemma authenticate_token {B} (req : Req B) st token userId r :
  replace_first "Bearer " "" <$> authorization req = Some token →
  truthy token = true →
  jwt_verify token = Some (userId, r) →
  authenticate req st
  = match findById_user userId (db_users st) with
    | None => inl (reply 401 "Invalid token. User not found.")
    | Some user => inr user
    end.
Proof. intros Hh Ht Hv. unfold authenticate. by rewrite Hh, Ht, Hv. Qed.

(** X6.  Deleting an account revokes its tokens: once the admin's deletion of
    an account has answered 200, every request whose token names that
    account is refused with 401, the account ids being distinct. *)
Theorem deleted_account_token_refused {B} admin (req : Req unit)
    (later : Req B) st token r :
  NoDup (User._id <$> db_users st) →
  statusCode (admin_delete_user admin req st).1 = 200 →
  replace_first "Bearer " "" <$> authorization later = Some token →
  truthy token = true →
  jwt_verify token = Some (params_id req, r) →
  authenticate later (admin_delete_user admin req st).2
  = inl (reply 401 "Invalid token. User not found.").
Proof.
  intros Hnd Hok Hh Ht Hv.
  rewrite (authenticate_token later _ token (params_id req) r Hh Ht Hv).
  unfold admin_delete_user in *.
  destruct (findById_user (params_id req) (db_users st)); [|discriminate].
  simpl. by rewrite findById_user_delete.
Qed.

(** X7.  A change of role takes effect on the tokens already issued: after
    the admin's role update of an account has found it, a request whose
    token names that account is authenticated as the account with its
    new role, whatever role the token was signed with, so that it is
    turned away by [isAdmin] unless the new role is admin. *)
Theorem role_update_takes_effect {B} admin (req : Req string)
    (later : Req B) st role account token r
    (handler : User.t → Req B → State → Response * State) :
  Role.of_string (body req) = Some role →
  findById_user (params_id req) (db_users st) = Some account →
  replace_first "Bearer " "" <$> authorization later = Some token →
  truthy token = true →
  jwt_verify token = Some (params_id req, r) →
  let st' := (admin_update_role admin req st).2 in
  authenticate later st' = inr (User.set_role role account)
  ∧ (role ≠ Role.admin →
     protected [isAdmin] handler later st'
     = (reply 403 "Access denied. Admin only.", st'))
  ∧ (role = Role.admin →
     protected [isAdmin] handler later st'
     = handler (User.set_role role account) later st').
Proof.
  intros Hrole Hfind Hh Ht Hv st'.
  assert (Hauth : authenticate later st' = inr (User.set_role role account)).
  { rewrite (authenticate_token later _ token (params_id req) r Hh Ht Hv).
    subst st'. unfold admin_update_role. rewrite Hrole, Hfind. simpl.
    by rewrite (findById_user_update _ _ _ account). }
  split_and!; [done| |].
  - intros Hne. unfold protected. rewrite Hauth. simpl. unfold isAdmin.
    simpl. by rewrite bool_decide_true.
  - intros ->. unfold protected. by rewrite Hauth.
Qed.

End Tokens.

(** The admin deletes the seller, whose token is then refused. *)
Lemma deleted_account_token_refused_witness :
  @authenticate demo unit (as_ "su2" "" ())
    (admin_delete_user root (as_ "au3" "u2" ()) shop).2
  = inl (reply 401 "Invalid token. User not found.").
Proof.
  apply (@deleted_account_token_refused demo unit root (as_ "au3" "u2" ())
           (as_ "su2" "" ()) shop "su2" Role.seller);
    [apply shop_ids_distinct|reflexivity..].
Defined.

(** The admin makes themself a plain user; their admin token is of no
    use any more. *)
Lemma role_update_takes_effect_witness :
  let st' := (admin_update_role root (as_ "au3" "u3" "user") shop).2 in
  @route demo (DELETE_product (as_ "au3" "p1" ())) st'
  = (reply 403 "Access denied. Admin only.", st').
Proof.
  cbv zeta.
  apply (@role_update_takes_effect demo unit root (as_ "au3" "u3" "user")
           (as_ "au3" "p1" ()) shop Role.user root "au3" Role.admin
           delete_product);
    [reflexivity..|discriminate].
Defined.

(** ** Registration, login, token: the round trips *)

Lemma substring_all s : String.substring 0 (String.length s) s = s.
Proof. induction s as [|c s IH]; [done|]. simpl. by rewrite IH. Qed.

Lemma prefix_append pat s : String.prefix pat (pat +:+ s) = true.
Proof.
  induction pat as [|c pat IH]; [by destruct s|].
  change (String c pat +:+ s) with (String c (pat +:+ s)). simpl.
  by destruct (ascii_dec c c).
Qed.

Lemma drop_string_append pat s :
  drop_string (String.length pat) (pat +:+ s) = s.
Proof.
  unfold drop_string. rewrite length_append.
  replace (String.length pat + String.length s - String.length pat)
    with (String.length s) by lia.
  induction pat as [|c pat IH]; [apply substring_all|].
  change (String c pat +:+ s) with (String c (pat +:+ s)). by simpl.
Qed.

(** Replacing a prefix. *)
Lemma replace_first_prefix pat rep s :
  replace_first pat rep (pat +:+ s) = rep +:+ s.
Proof.
  assert (Hgen : ∀ t, String.prefix pat t = true →
            replace_first pat rep t
            = rep +:+ drop_string (String.length pat) t).
  { intros t Ht. destruct t as [|c t].
    - destruct pat; [done|discriminate].
    - cbn [replace_first]. by rewrite Ht. }
  by rewrite Hgen, drop_string_append by apply prefix_append.
Qed.

(** Replacing in a string where the pattern does not occur. *)
Lemma replace_first_absent pat rep s :
  occurs_in pat s = false → replace_first pat rep s = s.
Proof.
  induction s as [|c s IH]; simpl.
  - rewrite orb_false_r. by intros ->.
  - intros Hocc. apply orb_false_elim in Hocc as [-> Hocc].
    by rewrite IH.
Qed.

Section RoundTrips.
Context `{Primitives}.

(** X8.  The [Bearer] prefix is optional: a header that carries the bare
    token is treated as the header that carries it after [Bearer], for
    every token in which the text [Bearer ] does not occur. *)
Theorem bearer_prefix_optional {B} (id : string) (b : B) (s : string)
    token st :
  occurs_in "Bearer " token = false →
  authenticate (mkReq (Some token) id b s) st
  = authenticate (mkReq (Some ("Bearer " +:+ token)) id b s) st.
Proof.
  intros Hocc. unfold authenticate.
  cbn [authorization fmap option_fmap option_map].
  by rewrite replace_first_prefix, (replace_first_absent _ _ _ Hocc).
Qed.

(** X9.  After a registration that succeeds, the login of the same endpoint
    with the same email and password succeeds and names the new account,
    on each of the three routers, provided the hash primitive accepts
    the password it hashed. *)
Theorem register_then_login (req : Req Credentials) (again : Req LoginBody)
    st :
  (∀ password salt,
     bcrypt_compare password (bcrypt_hash password 10 salt) = true) →
  (∀ account, account ∈ db_users st →
              User.email account ≠ cr_email (body req)) →
  lg_email (body again) = cr_email (body req) →
  lg_password (body again) = cr_password (body req) →
  let id := new_user_id (db_users st) in
  let name := cr_name (body req) in
  let email := cr_email (body req) in
  user_login again (user_register req st).2
  = (send 200 (Some "Login successful")
          (Session (jwt_sign id Role.user) name email Role.user),
     (user_register req st).2)
  ∧ seller_login again (seller_register req st).2
    = (send 200 (Some "Seller login successful")
            (Session (jwt_sign id Role.seller) name email Role.seller),
       (seller_register req st).2)
  ∧ admin_login again (admin_create req st).2
    = (send 200 (Some "Admin login successful")
            (Session (jwt_sign id Role.admin) name email Role.admin),
       (admin_create req st).2).
Proof.
  intros Hhash Hfree Hemail Hpw id name email.
  assert (Hno : ∀ y, y ∈ db_users st →
            String.eqb (User.email y) (cr_email (body req)) = false).
  { intros y Hy. apply String.eqb_neq. by apply Hfree. }
  unfold user_register, seller_register, admin_create.
  rewrite !(create_account_new _ _ _ _ req st Hfree).
  unfold user_login, seller_login, admin_login, login_with,
    findOne_email, findOne_email_role.
  cbn [snd db_users with_users]. rewrite Hemail, Hpw.
  split_and!.
  - rewrite find_snoc; [|done|by simpl; rewrite String.eqb_refl].
    simpl. by rewrite Hhash.
  - rewrite find_snoc;
      [|by intros y Hy; rewrite (Hno y Hy)|by simpl; rewrite String.eqb_refl].
    simpl. by rewrite Hhash.
  - rewrite find_snoc;
      [|by intros y Hy; rewrite (Hno y Hy)|by simpl; rewrite String.eqb_refl].
    simpl. by rewrite Hhash.
Qed.

(** X10.  The token a login issues authenticates as the account that logged
    in, on each of the three login endpoints, provided the token
    primitive verifies what it signed, signs no empty token, and the
    account ids are distinct. *)
Theorem login_then_authenticate {B} login (req : Req LoginBody)
    (later : Req B) st welcome token name email role :
  login ∈ [user_login; seller_login; admin_login] →
  (∀ userId r, jwt_verify (jwt_sign userId r) = Some (userId, r)) →
  (∀ userId r, jwt_sign userId r ≠ "") →
  NoDup (User._id <$> db_users st) →
  login req st = (send 200 (Some welcome) (Session token name email role), st) →
  authorization later = Some ("Bearer " +:+ token) →
  ∃ account,
    authenticate later st = inr account
    ∧ account ∈ db_users st
    ∧ User.email account = lg_email (body req)
    ∧ User.name account = name
    ∧ User.role account = role.
Proof.
  intros Hlogin Hverify Hsign Hnd Hok Hheader.
  assert (Hfound : ∃ found invalid welcome',
            login req st = login_with found invalid welcome' req st
            ∧ ∀ account, found = Some account →
                account ∈ db_users st
                ∧ User.email account = lg_email (body req)).
  { repeat (apply elem_of_cons in Hlogin as [->|Hlogin]);
      [..|by apply elem_of_nil in Hlogin].
    - eexists _, _, _. split; [reflexivity|]. intros account Hf.
      apply List.find_some in Hf as [Hin Heq].
      apply String.eqb_eq in Heq. by rewrite list_elem_of_In.
    - eexists _, _, _. split; [reflexivity|]. intros account Hf.
      by apply findOne_email_role_spec in Hf as (? & ? & _).
    - eexists _, _, _. split; [reflexivity|]. intros account Hf.
      by apply findOne_email_role_spec in Hf as (? & ? & _). }
  destruct Hfound as (found & invalid & welcome' & Heq & Hspec).
  rewrite Heq in Hok. unfold login_with in Hok.
  destruct found as [account|]; [|discriminate].
  destruct (bcrypt_compare _ _); [|discriminate].
  injection Hok as _ <- <- _ <-.
  destruct (Hspec account eq_refl) as [Hin Hemail].
  exists account. split_and!; [|done..].
  unfold authenticate. rewrite Hheader.
  cbn [fmap option_fmap option_map]. rewrite replace_first_prefix.
  change ("" +:+ ?t) with t.
  assert (Ht : truthy (jwt_sign (User._id account) (User.role account)) = true).
  { unfold truthy. apply negb_true_iff, String.eqb_neq, Hsign. }
  rewrite Ht, Hverify. by rewrite findById_user_NoDup.
Qed.

End RoundTrips.

Lemma demo_compare_hash password salt :
  demo_compare password (demo_hash password 10 salt) = true.
Proof. unfold demo_compare, demo_hash. apply String.eqb_refl. Qed.

Lemma demo_verify_sign userId r :
  demo_verify (demo_sign userId r) = Some (userId, r).
Proof. by destruct r. Qed.

Lemma demo_sign_not_empty userId r : demo_sign userId r ≠ "".
Proof. by destruct r. Qed.

(** The token alone in the header is the token after [Bearer]. *)
Lemma bearer_prefix_optional_witness :
  @authenticate demo unit (mkReq (Some "uu1") "" () "salt") shop = inr alice
  ∧ @authenticate demo unit (mkReq (Some "Bearer uu1") "" () "salt") shop
    = inr alice.
Proof.
  split; [|reflexivity].
  by rewrite (@bearer_prefix_optional demo unit "" () "salt" "uu1" shop).
Defined.

(** Bob registers as a seller and logs in on the seller endpoint. *)
Lemma register_then_login_witness :
  let req := anonymous "" (mkCredentials "Bob" "b@x.com" "pw") in
  let again := anonymous "" (mkLogin "b@x.com" "pw") in
  statusCode (@seller_login demo again (@seller_register demo req shop).2).1
  = 200.
Proof.
  cbv zeta.
  destruct (@register_then_login demo
              (anonymous "" (mkCredentials "Bob" "b@x.com" "pw"))
              (anonymous "" (mkLogin "b@x.com" "pw")) shop)
    as (_ & Hseller & _).
  - intros. apply demo_compare_hash.
  - intros account Hin.
    repeat (apply elem_of_cons in Hin as [->|Hin]; [discriminate|]).
    by apply elem_of_nil in Hin.
  - reflexivity.
  - reflexivity.
  - by rewrite Hseller.
Defined.

(** The seller logs in and calls a protected route with the token. *)
Lemma login_then_authenticate_witness :
  ∃ account,
    @authenticate demo unit (as_ "su2" "" ()) shop = inr account
    ∧ User.email account = "sam@x.com"
    ∧ User.role account = Role.seller.
Proof.
  destruct (@login_then_authenticate demo unit (@seller_login demo)
              (anonymous "" (mkLogin "sam@x.com" "sell"))
              (as_ "su2" "" ()) shop
              "Seller login successful" "su2" "Sam" "sam@x.com" Role.seller)
    as (account & Hauth & _ & Hemail & _ & Hrole).
  - right. left.
  - apply demo_verify_sign.
  - apply demo_sign_not_empty.
  - apply shop_ids_distinct.
  - reflexivity.
  - reflexivity.
  - by exists account.
Defined.

Lemma findOne_email_update us : ∀ u f,
  NoDup (User._id <$> us) →
  (∀ v, User.email (f v) = User.email v) →
  findOne_email (User.email u) us = Some u →
  findOne_email (User.email u) (update_user (User._id u) f us) = Some (f u).
Proof.
  unfold findOne_email.
  induction us as [|v us IH]; intros u f Hnd Hf Hfind; [done|].
  rewrite fmap_cons in Hnd. apply NoDup_cons in Hnd as [Hv Hnd].
  simpl in *.
  destruct (String.eqb_spec (User.email v) (User.email u)) as [Hemail|Hemail].
  - injection Hfind as ->. rewrite String.eqb_refl. simpl.
    by rewrite Hf, String.eqb_refl.
  - destruct (String.eqb_spec (User._id v) (User._id u)) as [Hid|Hid].
    + apply List.find_some in Hfind as [Hin _].
      destruct Hv. rewrite Hid. apply list_elem_of_fmap_2.
      by apply list_elem_of_In.
    + simpl. destruct (String.eqb_spec (User.email v) (User.email u));
        [done|]. by apply IH.
Qed.

Section Passwords.
Context `{Primitives}.

(** X11.  A change of password with the wrong current password answers 400 and
    changes nothing; with the right one it answers 200, and the account
    then logs in with the new password, provided the hash primitive
    accepts the password it hashed, the account ids are distinct and the
    account is the one its email names. *)
Theorem change_password_then_login user (req : Req PasswordBody)
    (again : Req LoginBody) st :
  (bcrypt_compare (currentPassword (body req)) (User.password user) = false →
   change_password user req st
   = (reply 400 "Current password is incorrect", st))
  ∧ ((∀ password salt,
        bcrypt_compare password (bcrypt_hash password 10 salt) = true) →
     NoDup (User._id <$> db_users st) →
     findOne_email (User.email user) (db_users st) = Some user →
     bcrypt_compare (currentPassword (body req)) (User.password user) = true →
     lg_email (body again) = User.email user →
     lg_password (body again) = newPassword (body req) →
     (change_password user req st).1
     = reply 200 "Password changed successfully"
     ∧ user_login again (change_password user req st).2
       = (send 200 (Some "Login successful")
               (Session (jwt_sign (User._id user) (User.role user))
                        (User.name user) (User.email user) (User.role user)),
          (change_password user req st).2)).
Proof.
  split.
  - intros Hbad. unfold change_password. by rewrite Hbad.
  - intros Hhash Hnd Hfind Hgood Hemail Hpw.
    unfold change_password. rewrite Hgood. split; [done|].
    unfold user_login, login_with. cbn [snd db_users with_users].
    rewrite Hemail, Hpw.
    rewrite (findOne_email_update _ user _ Hnd); [|done|done].
    simpl. by rewrite Hhash.
Qed.

End Passwords.

(** Alice replaces her password and logs in with the new one. *)
Lemma change_password_then_login_witness :
  let req := as_ "uu1" "" (mkPasswords "secret" "hunter2") in
  let again := anonymous "" (mkLogin "a@x.com" "hunter2") in
  @change_password demo alice
    (as_ "uu1" "" (mkPasswords "wrong" "hunter2")) shop
  = (reply 400 "Current password is incorrect", shop)
  ∧ statusCode
      (@user_login demo again (@change_password demo alice req shop).2).1
    = 200.
Proof.
  cbv zeta. split.
  - by apply (@change_password_then_login demo alice
                (as_ "uu1" "" (mkPasswords "wrong" "hunter2"))
                (anonymous "" (mkLogin "a@x.com" "hunter2")) shop).
  - destruct (@change_password_then_login demo alice
                (as_ "uu1" "" (mkPasswords "secret" "hunter2"))
                (anonymous "" (mkLogin "a@x.com" "hunter2")) shop)
      as [_ Hgood].
    destruct Hgood as [_ Hlogin];
      [intros; apply demo_compare_hash|apply shop_ids_distinct
      |reflexivity..|].
    by rewrite Hlogin.
Defined.

(** ** Orders over time *)

(** One more line adds its price times its quantity to the sum. *)
Lemma lines_total_snoc lines line :
  lines_total (lines ++ [line])
  = js_add (lines_total lines)
           (js_mul (OrderItem.price line) (OrderItem.quantity line)).
Proof. unfold lines_total. by rewrite foldl_app. Qed.

(** The total the purchase loop accumulates is the sum over the lines it
    accumulates. *)
Lemma buy_loop_total items : ∀ acc tot ps acc' tot' ps',
  tot = lines_total acc →
  buy_loop items acc tot ps = (inr (acc', tot'), ps') →
  tot' = lines_total acc'.
Proof.
  induction items as [|item rest IH]; intros acc tot ps acc' tot' ps' Htot Hrun.
  - simpl in Hrun. by injection Hrun as <- <- _.
  - simpl in Hrun.
    destruct (ps !! Item.productId item) as [product|]; [|done].
    destruct (Product.quantity product <? Item.quantity item)%Z; [done|].
    eapply IH; [|exact Hrun].
    by rewrite lines_total_snoc, Htot.
Qed.

Lemma set_status_same order : Order.set_status (Order.status order) order = order.
Proof. by destruct order. Qed.

Section OrdersOverTime.
Context `{Primitives}.

(** What a call does to the order collection: nothing, or it adds one
    pending order under a new id, whose total is the sum over its lines,
    or it rewrites the status of one order. *)
Lemma route_orders c st :
  db_orders (route c st).2 = db_orders st
  ∨ (∃ order,
       db_orders (route c st).2
       = <[new_id (db_orders st) := order]> (db_orders st)
       ∧ Order.totalAmount order = lines_total (Order.products order)
       ∧ Order.status order = Status.pending)
  ∨ (∃ id status,
       db_orders (route c st).2
       = alter (Order.set_status status) id (db_orders st)).
Proof.
  pose (P := λ st' : State,
    db_orders st' = db_orders st
    ∨ (∃ order,
         db_orders st' = <[new_id (db_orders st) := order]> (db_orders st)
         ∧ Order.totalAmount order = lines_total (Order.products order)
         ∧ Order.status order = Status.pending)
    ∨ (∃ id status,
         db_orders st' = alter (Order.set_status status) id (db_orders st))).
  change (P (route c st).2).
  assert (Hsame : P st) by (by left).
  destruct c; simpl route;
    first
      [ left; apply create_account_keeps
      | apply protected_preserves; [apply Hsame|intros user] ].
  - left. apply update_profile_keeps.
  - left. apply change_password_keeps.
  - unfold buy.
    destruct (products (body req)) as [[|item rest]|]; [by left| |by left].
    destruct (buy_loop _ _ _ _) as [[r|[lines tot]] ps] eqn:Hrun; [by left|].
    right; left. eexists. split_and!; [done| |done].
    simpl. eapply buy_loop_total; [|exact Hrun]. done.
  - unfold cancel, findOne_order.
    destruct (db_orders st !! params_id req) as [order|] eqn:Ho; [|by left].
    destruct (String.eqb _ _); [|by left].
    case_bool_decide; [by left|].
    do 2 right. exists (params_id req), Status.cancelled. simpl.
    apply map_eq. intros i. rewrite lookup_insert, lookup_alter.
    case_decide; [subst i; by rewrite Ho|done].
  - by left.
  - left. unfold update_product. by destruct (_ !! params_id req).
  - left. unfold delete_product. by destruct (_ !! params_id req).
  - left. apply admin_delete_user_keeps.
  - left. apply admin_update_role_keeps.
  - left. unfold delete_product. by destruct (_ !! params_id req).
  - left. unfold update_product. by destruct (_ !! params_id req).
  - unfold set_order_status.
    destruct (Status.of_string (body req)) as [status|]; [|by left].
    do 2 right. exists (params_id req), status.
    by destruct (_ !! params_id req).
  - left. apply update_profile_keeps.
  - by left.
  - left. unfold update_product. by destruct (_ !! params_id req).
Qed.

(** X12.  An order is never deleted and its snapshot never changes: through
    every sequence of calls an order keeps its owner, its lines, its
    total and its shipping address, whatever happens to the products
    meanwhile; only its status may differ. *)
Theorem order_snapshot_immutable calls st id order :
  db_orders st !! id = Some order →
  ∃ status,
    db_orders (run calls st) !! id = Some (Order.set_status status order).
Proof.
  intros Ho.
  assert (Hgen : ∃ status,
            db_orders st !! id = Some (Order.set_status status order)).
  { exists (Order.status order). by rewrite set_status_same. }
  clear Ho. revert st Hgen.
  induction calls as [|c calls IH]; intros st Hgen; [done|].
  apply IH. destruct Hgen as [status Ho].
  destruct (route_orders c st) as [-> | [(o & -> & _) | (k & s & ->)]].
  - by exists status.
  - exists status. rewrite lookup_insert_ne; [done|].
    intros Heq. pose proof (new_id_fresh (db_orders st)) as Hfresh.
    rewrite Heq in Hfresh. congruence.
  - rewrite lookup_alter. case_decide; [|by exists status].
    subst k. rewrite Ho. by exists s.
Qed.

(** X13.  Every order's totalAmount stays the sum of price times
    quantity over its own lines, added up line by line in JavaScript's
    arithmetic as the purchase does, through every sequence of calls. *)
Theorem order_totals_stay_consistent calls st :
  totals_consistent st → totals_consistent (run calls st).
Proof.
  revert st. induction calls as [|c calls IH]; intros st Hst; [done|].
  apply IH. unfold totals_consistent in *.
  destruct (route_orders c st) as [-> | [(o & -> & Ho & _) | (k & s & ->)]].
  - done.
  - by apply map_Forall_insert_2.
  - intros i o. rewrite lookup_alter. case_decide; [|apply Hst].
    destruct (db_orders st !! k) as [old|] eqn:Hold; [|done].
    simpl. intros [= <-]. by apply (Hst _ _ Hold).
Qed.

End OrdersOverTime.

(** The order of three pens keeps its lines and total when the seller
    raises the price of pens and the admin ships the order. *)
Lemma order_snapshot_immutable_witness :
  let st1 :=
    (@route demo
       (POST_user_buy (as_ "uu1" "" (mkBuy (Some [Item.mk "p1" 3]) "Home")))
       shop).2 in
  ∃ status,
    db_orders
      (@run demo
         [PUT_product (as_ "su2" "p1"
                         (ProductUpdate.mk None (Some 99%Z) None None None));
          PUT_admin_order_status (as_ "au3" "0" "shipped")]
         st1) !! "0"
    = Some (Order.set_status status
              (Order.mk "u1" [OrderItem.mk "p1" "Pen" 20 3] 60 "Home"
                        Status.pending)).
Proof.
  cbv zeta. by apply (@order_snapshot_immutable demo).
Defined.

(** A shop with no order is consistent, and stays so. *)
Lemma order_totals_stay_consistent_witness :
  totals_consistent
    (@run demo
       [POST_user_buy
          (as_ "uu1" "" (mkBuy (Some [Item.mk "p1" 2; Item.mk "p2" 1]) "Home"));
        PUT_user_order_cancel (as_ "uu1" "0" ())]
       shop).
Proof.
  apply (@order_totals_stay_consistent demo). apply map_Forall_empty.
Defined.

(** ** Stock and catalog *)

Lemma blank_alter (f : Product.t → Product.t) id (ps : gmap string Product.t) :
  (∀ p, blank (f p) = blank p) →
  blank <$> alter f id ps = blank <$> ps.
Proof.
  intros Hf. apply map_eq. intros i. rewrite !lookup_fmap, lookup_alter.
  case_decide; [subst i|done].
  destruct (ps !! id) as [p|]; [|done]. simpl. by rewrite Hf.
Qed.

Lemma buy_loop_blank items : ∀ acc tot ps res ps',
  buy_loop items acc tot ps = (res, ps') → blank <$> ps' = blank <$> ps.
Proof.
  induction items as [|item rest IH]; intros acc tot ps res ps' Hrun.
  - by injection Hrun as _ <-.
  - simpl in Hrun.
    destruct (ps !! Item.productId item) as [product|];
      [|by injection Hrun as _ <-].
    destruct (Product.quantity product <? Item.quantity item)%Z;
      [by injection Hrun as _ <-|].
    apply IH in Hrun. rewrite Hrun. by apply blank_alter.
Qed.

Lemma restore_stock_blank lines : ∀ ps,
  blank <$> restore_stock lines ps = blank <$> ps.
Proof.
  unfold restore_stock.
  induction lines as [|line rest IH]; intros ps; [done|].
  simpl. rewrite IH. by apply blank_alter.
Qed.

(** X14.  A purchase, whether it succeeds or stops at a line, and a
    cancellation change nothing of the catalog but quantities: no
    product appears or disappears (a cancellation does not bring back a
    product deleted since the purchase) and every product keeps its
    name, price, description and color. *)
Theorem buy_and_cancel_touch_quantities_only user (breq : Req BuyBody)
    (creq : Req unit) st :
  blank <$> db_products (buy user breq st).2 = blank <$> db_products st
  ∧ blank <$> db_products (cancel user creq st).2 = blank <$> db_products st.
Proof.
  split.
  - unfold buy.
    destruct (products (body breq)) as [[|item rest]|]; [done| |done].
    destruct (buy_loop _ _ _ _) as [[r|[lines tot]] ps] eqn:Hrun;
      simpl; by eapply buy_loop_blank.
  - unfold cancel. destruct (findOne_order _ _ _) as [order|]; [|done].
    case_bool_decide; [done|]. simpl. apply restore_stock_blank.
Qed.

(** The lines the purchase loop gets through all name products that are
    there. *)
Lemma buy_loop_products_exist items : ∀ acc tot ps acc' tot' ps',
  buy_loop items acc tot ps = (inr (acc', tot'), ps') →
  ∀ item, item ∈ items → is_Some (ps !! Item.productId item).
Proof.
  induction items as [|item rest IH]; intros acc tot ps acc' tot' ps' Hrun i Hi.
  - by apply elem_of_nil in Hi.
  - simpl in Hrun.
    destruct (ps !! Item.productId item) as [product|] eqn:Hp; [|done].
    destruct (Product.quantity product <? Item.quantity item)%Z; [done|].
    apply elem_of_cons in Hi as [->|Hi]; [by eexists|].
    specialize (IH _ _ _ _ _ _ Hrun i Hi). unfold findByIdAndUpdate in IH.
    rewrite lookup_alter in IH. case_decide as Heq; [|done].
    rewrite <- Heq in *. rewrite Hp. by eexists.
Qed.

(** X15.  No order is placed that names a product which does not exist,
    wherever in the request the line stands: the call does not answer
    201 and the orders stay as they were. *)
Theorem buy_missing_product_places_no_order user (req : Req BuyBody) st
    items item :
  products (body req) = Some items →
  item ∈ items →
  db_products st !! Item.productId item = None →
  statusCode (buy user req st).1 ≠ 201
  ∧ db_orders (buy user req st).2 = db_orders st.
Proof.
  intros Hbody Hin Hnone.
  assert (Hcode : statusCode (buy user req st).1 ≠ 201).
  { unfold buy. rewrite Hbody.
    destruct items as [|first rest]; [by apply elem_of_nil in Hin|].
    destruct (buy_loop _ _ _ _) as [[r|[lines tot]] ps] eqn:Hrun.
    - simpl. destruct (buy_loop_sent _ _ _ _ _ _ Hrun) as [-> | ->];
        discriminate.
    - destruct (buy_loop_products_exist _ _ _ _ _ _ _ Hrun item Hin)
        as [p Hp]. congruence. }
  split; [done|]. by apply buy_refused_no_order.
Qed.

(** A pen and a product that is not in the catalog. *)
Lemma buy_missing_product_places_no_order_witness :
  let req := as_ "uu1" "" (mkBuy (Some [Item.mk "p1" 1; Item.mk "p9" 1])
                                 "Home") in
  statusCode (buy alice req shop).1 ≠ 201
  ∧ db_orders (buy alice req shop).2 = db_orders shop.
Proof.
  cbv zeta.
  apply (buy_missing_product_places_no_order alice _ shop
           [Item.mk "p1" 1; Item.mk "p9" 1] (Item.mk "p9" 1));
    [reflexivity| |reflexivity].
  right. left.
Defined.

Lemma cancel_pending user (req : Req unit) st order :
  db_orders st !! params_id req = Some order →
  Order.userId order = User._id user →
  Order.status order = Status.pending →
  cancel user req st
  = (send 200 (Some "Order cancelled successfully")
          (OrderDoc (params_id req) (Order.set_status Status.cancelled order)),
     mkState (db_users st)
             (restore_stock (Order.products order) (db_products st))
             (<[params_id req := Order.set_status Status.cancelled order]>
                (db_orders st))).
Proof.
  intros Ho Hu Hs. unfold cancel.
  rewrite (findOne_order_own _ user _ order Ho Hu). by rewrite Hs.
Qed.

Lemma cancel_answered_200 user (req : Req unit) st :
  statusCode (cancel user req st).1 = 200 →
  ∃ order, db_orders st !! params_id req = Some order
           ∧ Order.userId order = User._id user
           ∧ Order.status order = Status.pending.
Proof.
  unfold cancel, findOne_order.
  destruct (db_orders st !! params_id req) as [order|]; [|discriminate].
  destruct (String.eqb_spec (Order.userId order) (User._id user)) as [Hu|];
    [|discriminate].
  case_bool_decide as Hs; [discriminate|]. intros _.
  exists order. split_and!; [done|done|].
  by destruct (decide (Order.status order = Status.pending)).
Qed.

(** X16.  A cancellation is not repeated: once a cancellation has answered
    200, the same request again answers 400 and changes nothing, so the
    stock is given back once. *)
Theorem cancel_twice_refused user (req : Req unit) st :
  statusCode (cancel user req st).1 = 200 →
  cancel user req (cancel user req st).2
  = (reply 400 "Cannot cancel order. Order already processed.",
     (cancel user req st).2).
Proof.
  intros Hok. apply cancel_answered_200 in Hok as (order & Ho & Hu & Hs).
  rewrite (cancel_pending user req st order Ho Hu Hs). cbn [snd].
  unfold cancel. cbn [db_orders].
  erewrite findOne_order_own; [|apply lookup_insert_eq|done].
  by rewrite bool_decide_true.
Qed.

(** Alice cancels her order twice. *)
Lemma cancel_twice_refused_witness :
  let st1 :=
    (buy alice (as_ "uu1" "" (mkBuy (Some [Item.mk "p1" 3]) "Home")) shop).2 in
  let req := as_ "uu1" "0" () in
  cancel alice req (cancel alice req st1).2
  = (reply 400 "Cannot cancel order. Order already processed.",
     (cancel alice req st1).2).
Proof. cbv zeta. by apply cancel_twice_refused. Defined.



(** ** Product create, read, update, delete *)

(** X18.  A product that is added is stored under an id no product had, can
    be fetched under that id as it was given, and leaves every other
    product as it was; the catalog grows by one. *)
Theorem add_product_then_get user (req : Req Product.t) (get : Req unit) st :
  let id := new_id (db_products st) in
  let st' := (add_product user req st).2 in
  db_products st !! id = None
  ∧ (add_product user req st).1
    = send 201 (Some "Product added successfully") (ProductDoc id (body req))
  ∧ (params_id get = id →
     get_product get st' = send 200 None (ProductDoc id (body req)))
  ∧ (params_id get ≠ id → get_product get st' = get_product get st)
  ∧ size (db_products st') = S (size (db_products st)).
Proof.
  intros id st'. subst st'. unfold add_product, get_product. simpl.
  pose proof (new_id_fresh (db_products st)) as Hfresh.
  split_and!; [done|done| | |].
  - intros ->. by rewrite lookup_insert_eq.
  - intros Hne. by rewrite lookup_insert_ne.
  - by apply map_size_insert_None.
Qed.

(** X19.  A product update of an id that is not in the catalog answers 404 and
    changes nothing; of an id that is, it answers 200, the product then
    has the fields of the body where the body gives one and its former
    fields elsewhere, and the other products are as they were. *)
Theorem update_product_scope user (req : Req ProductUpdate.t) st :
  (db_products st !! params_id req = None →
   update_product user req st = (reply 404 "Product not found", st))
  ∧ (∀ product,
       db_products st !! params_id req = Some product →
       let updated := ProductUpdate.apply (body req) product in
       (update_product user req st).1
       = send 200 (Some "Product updated successfully")
              (ProductDoc (params_id req) updated)
       ∧ db_products (update_product user req st).2
         = <[params_id req := updated]> (db_products st)
       ∧ (body req = ProductUpdate.mk None None None None None →
          (update_product user req st).2 = st)).
Proof.
  unfold update_product, findByIdAndUpdate. split.
  - intros Hnone. rewrite lookup_alter_eq, Hnone. simpl.
    rewrite alter_id' by done. by destruct st.
  - intros product Hp. rewrite lookup_alter_eq, Hp. simpl.
    assert (Halter : alter (ProductUpdate.apply (body req)) (params_id req)
                           (db_products st)
                     = <[params_id req := ProductUpdate.apply (body req)
                                            product]> (db_products st)).
    { apply map_eq. intros i. rewrite lookup_alter, lookup_insert.
      case_decide; [subst i; by rewrite Hp|done]. }
    split_and!; [done|done|].
    intros Hbody. rewrite Halter. rewrite Hbody.
    assert (Hid : ProductUpdate.apply
                    (ProductUpdate.mk None None None None None) product
                  = product) by (by destruct product).
    rewrite Hid, insert_id by done. by destruct st.
Qed.

(** The seller raises the price of the pen; an unknown id is refused. *)
Lemma update_product_scope_witness :
  update_product sam (as_ "su2" "p9" (ProductUpdate.mk None (Some 25%Z) None
                                                       None None)) shop
  = (reply 404 "Product not found", shop)
  ∧ (update_product sam
       (as_ "su2" "p1" (ProductUpdate.mk None (Some 25%Z) None None None))
       shop).1
    = send 200 (Some "Product updated successfully")
           (ProductDoc "p1" (Product.mk "Pen" 25 "A pen" "Blue" 5)).
Proof.
  split.
  - by apply update_product_scope.
  - destruct (update_product_scope sam
                (as_ "su2" "p1" (ProductUpdate.mk None (Some 25%Z) None None
                                                  None)) shop) as [_ Hsome].
    by destruct (Hsome pen eq_refl) as (Hresp & _).
Defined.

(** X20.  Deleting a product that is not there answers 404 and changes
    nothing.  Once a deletion has answered 200 the product can be
    neither fetched (404) nor bought (no purchase that names it places
    an order), and the other products are as they were. *)
Theorem deleted_product_is_gone admin (req : Req unit) st :
  (db_products st !! params_id req = None →
   delete_product admin req st = (reply 404 "Product not found", st))
  ∧ (statusCode (delete_product admin req st).1 = 200 →
     let st' := (delete_product admin req st).2 in
     get_product req st' = reply 404 "Product not found"
     ∧ (∀ get, params_id get ≠ params_id req →
               get_product get st' = get_product get st)
     ∧ (∀ user (breq : Req BuyBody) items item,
          products (body breq) = Some items →
          item ∈ items →
          Item.productId item = params_id req →
          statusCode (buy user breq st').1 ≠ 201)).
Proof.
  unfold delete_product. split.
  - by intros ->.
  - destruct (db_products st !! params_id req) as [product|];
      [|discriminate].
    intros _. cbn [snd]. unfold get_product. simpl.
    split_and!.
    + by rewrite lookup_delete_eq.
    + intros get Hne. by rewrite lookup_delete_ne.
    + intros user breq items item Hbody Hin Hitem.
      assert (Hcode : statusCode
                (buy user breq
                   (with_products (delete (params_id req) (db_products st))
                                  st)).1 ≠ 201).
      { unfold buy. rewrite Hbody.
        destruct items as [|first rest]; [by apply elem_of_nil in Hin|].
        destruct (buy_loop _ _ _ _) as [[r|[lines tot]] ps] eqn:Hrun.
        - simpl. destruct (buy_loop_sent _ _ _ _ _ _ Hrun) as [-> | ->];
            discriminate.
        - destruct (buy_loop_products_exist _ _ _ _ _ _ _ Hrun item Hin)
            as [p Hp]. simpl in Hp.
          rewrite Hitem, lookup_delete_eq in Hp. discriminate. }
      exact Hcode.
Qed.

(** The admin deletes the ink, which Alice then tries to buy. *)
Lemma deleted_product_is_gone_witness :
  let st' := (delete_product root (as_ "au3" "p2" ()) shop).2 in
  get_product (anonymous "p2" ()) st' = reply 404 "Product not found"
  ∧ statusCode
      (buy alice (as_ "uu1" "" (mkBuy (Some [Item.mk "p1" 1; Item.mk "p2" 1])
                                      "Home")) st').1 ≠ 201.
Proof.
  cbv zeta.
  destruct (deleted_product_is_gone root (as_ "au3" "p2" ()) shop)
    as [_ Hgone].
  destruct (Hgone eq_refl) as (Hget & _ & Hbuy).
  split; [exact Hget|].
  apply (Hbuy alice _ [Item.mk "p1" 1; Item.mk "p2" 1] (Item.mk "p2" 1));
    [reflexivity| |reflexivity].
  right. left.
Defined.

(** ** Reading orders and statistics *)

(** X21.  An account reads its own orders only: the order is returned when the
    id names an order of the caller, and when it names an order of
    someone else the answer is the 404 of an id that names no order;
    reading changes nothing. *)
Theorem get_order_own_only user (req : Req unit) st :
  (get_order user req st).2 = st
  ∧ (∀ order,
       db_orders st !! params_id req = Some order →
       Order.userId order = User._id user →
       (get_order user req st).1
       = send 200 None (OrderDoc (params_id req) order))
  ∧ (∀ order,
       db_orders st !! params_id req = Some order →
       Order.userId order ≠ User._id user →
       (get_order user req st).1 = reply 404 "Order not found")
  ∧ (db_orders st !! params_id req = None →
     (get_order user req st).1 = reply 404 "Order not found").
Proof.
  unfold get_order, findOne_order. split_and!.
  - destruct (db_orders st !! params_id req) as [order|]; [|done].
    by destruct (String.eqb _ _).
  - intros order -> ->. by rewrite String.eqb_refl.
  - intros order -> Hne.
    by destruct (String.eqb_spec (Order.userId order) (User._id user)).
  - by intros ->.
Qed.

(** Alice reads her order; the seller gets a 404 for it. *)
Lemma get_order_own_only_witness :
  let st1 :=
    (buy alice (as_ "uu1" "" (mkBuy (Some [Item.mk "p1" 3]) "Home")) shop).2 in
  (get_order alice (as_ "uu1" "0" ()) st1).1
  = send 200 None
         (OrderDoc "0" (Order.mk "u1" [OrderItem.mk "p1" "Pen" 20 3] 60
                                 "Home" Status.pending))
  ∧ (get_order sam (as_ "su2" "0" ()) st1).1 = reply 404 "Order not found".
Proof.
  cbv zeta. split.
  - destruct (get_order_own_only alice (as_ "uu1" "0" ())
                (buy alice (as_ "uu1" ""
                              (mkBuy (Some [Item.mk "p1" 3]) "Home"))
                     shop).2) as (_ & Hown & _).
    by apply Hown.
  - destruct (get_order_own_only sam (as_ "su2" "0" ())
                (buy alice (as_ "uu1" ""
                              (mkBuy (Some [Item.mk "p1" 3]) "Home"))
                     shop).2) as (_ & _ & Hother & _).
    eapply Hother; [reflexivity|discriminate].
Defined.

(** X22.  The three account counts of the dashboard add up to the number of
    accounts: every account is counted once. *)
Theorem dashboard_counts_add_up st :
  totalUsers (dashboard st) + totalSellers (dashboard st)
  + totalAdmins (dashboard st) = length (db_users st).
Proof.
  unfold dashboard, countDocuments_role. simpl.
  induction (db_users st) as [|u us IH]; [done|].
  simpl. destruct (User.role u); simpl; lia.
Qed.

Section Dashboard.
Context `{Primitives}.

(** X23.  The dashboard is sent to admins only: whenever the route gives the
    statistics, the request was authenticated as an account whose role
    is admin; to any other account it answers 403. *)
Theorem dashboard_for_admins_only (req : Req unit) st :
  (∀ stats, GET_admin_dashboard req st = inr stats →
            stats = dashboard st
            ∧ ∃ user, authenticate req st = inr user
                      ∧ User.role user = Role.admin)
  ∧ (∀ user, authenticate req st = inr user →
             User.role user ≠ Role.admin →
             GET_admin_dashboard req st
             = inl (reply 403 "Access denied. Admin only.")).
Proof.
  unfold GET_admin_dashboard. split.
  - intros stats. destruct (authenticate req st) as [r|user]; [done|].
    simpl. unfold isAdmin. case_bool_decide as Hrole; [done|].
    intros [= <-]. split; [done|]. exists user. split; [done|].
    by destruct (decide (User.role user = Role.admin)).
  - intros user -> Hrole. simpl. unfold isAdmin.
    by rewrite bool_decide_true.
Qed.

End Dashboard.

(** The seller is refused the dashboard. *)
Lemma dashboard_for_admins_only_witness :
  @GET_admin_dashboard demo (as_ "su2" "" ()) shop
  = inl (reply 403 "Access denied. Admin only.")
  ∧ @GET_admin_dashboard demo (as_ "au3" "" ()) shop
    = inr (mkStats 1 1 1 3).
Proof.
  split; [|reflexivity].
  by apply (@dashboard_for_admins_only demo (as_ "su2" "" ()) shop
             ) with (user := sam).
Defined.

(** The seller adds a notebook and fetches it. *)
Lemma add_product_then_get_witness :
  let book := Product.mk "Notebook" 35 "Ruled" "Green" 10 in
  let st' := (add_product sam (as_ "su2" "" book) shop).2 in
  get_product (anonymous "0" ()) st' = send 200 None (ProductDoc "0" book)
  ∧ get_product (anonymous "p1" ()) st' = send 200 None (ProductDoc "p1" pen).
Proof.
  cbv zeta.
  destruct (add_product_then_get sam
              (as_ "su2" "" (Product.mk "Notebook" 35 "Ruled" "Green" 10))
              (anonymous "0" ()) shop) as (_ & _ & Hnew & _).
  destruct (add_product_then_get sam
              (as_ "su2" "" (Product.mk "Notebook" 35 "Ruled" "Green" 10))
              (anonymous "p1" ()) shop) as (_ & _ & _ & Hold & _).
  split.
  - by apply Hnew.
  - rewrite Hold; [reflexivity|discriminate].
Defined.

(** ** The admin's status update *)

(** X24.  The admin's status update with a text that is none of the five
    statuses answers 400, and with the id of no order 404, and changes
    nothing; when it finds the order it writes the status and nothing
    else: the products keep their quantities even when the status
    written is cancelled (only the owner's cancellation gives stock
    back), and the accounts are as they were. *)
Theorem status_update_scope admin (req : Req string) st :
  (Status.of_string (body req) = None →
   set_order_status admin req st = (reply 400 "Invalid status", st))
  ∧ (∀ status,
       Status.of_string (body req) = Some status →
       db_orders st !! params_id req = None →
       set_order_status admin req st = (reply 404 "Order not found", st))
  ∧ (∀ status order,
       Status.of_string (body req) = Some status →
       db_orders st !! params_id req = Some order →
       db_orders (set_order_status admin req st).2 !! params_id req
       = Some (Order.set_status status order))
  ∧ db_products (set_order_status admin req st).2 = db_products st
  ∧ db_users (set_order_status admin req st).2 = db_users st.
Proof.
  unfold set_order_status, findByIdAndUpdate. split_and!.
  - by intros ->.
  - intros status -> Hnone. rewrite lookup_alter_eq, Hnone. simpl.
    rewrite alter_id' by done. by destruct st.
  - intros status order -> Ho. rewrite lookup_alter_eq, Ho. simpl.
    by rewrite lookup_alter_eq, Ho.
  - destruct (Status.of_string (body req)); [|done].
    by destruct (_ !! params_id req).
  - destruct (Status.of_string (body req)); [|done].
    by destruct (_ !! params_id req).
Qed.

(** The admin marks Alice's order cancelled: the pens stay taken. *)
Lemma status_update_scope_witness :
  let st1 :=
    (buy alice (as_ "uu1" "" (mkBuy (Some [Item.mk "p1" 3]) "Home")) shop).2 in
  set_order_status root (as_ "au3" "0" "Cancelled") st1
  = (reply 400 "Invalid status", st1)
  ∧ set_order_status root (as_ "au3" "7" "cancelled") st1
    = (reply 404 "Order not found", st1)
  ∧ Order.status
      <$> db_orders (set_order_status root (as_ "au3" "0" "cancelled") st1).2
          !! "0" = Some Status.cancelled
  ∧ Product.quantity
      <$> db_products (set_order_status root (as_ "au3" "0" "cancelled")
                         st1).2 !! "p1" = Some 2%Z.
Proof.
  cbv zeta. split_and!.
  - by apply status_update_scope.
  - by eapply (status_update_scope root (as_ "au3" "7" "cancelled")).
  - destruct (status_update_scope root (as_ "au3" "0" "cancelled")
                (buy alice (as_ "uu1" ""
                              (mkBuy (Some [Item.mk "p1" 3]) "Home"))
                     shop).2) as (_ & _ & Hset & _).
    pose proof (Hset Status.cancelled _ eq_refl eq_refl) as Hs.
    change (params_id (as_ "au3" "0" "cancelled")) with "0" in Hs.
    by rewrite Hs.
  - destruct (status_update_scope root (as_ "au3" "0" "cancelled")
                (buy alice (as_ "uu1" ""
                              (mkBuy (Some [Item.mk "p1" 3]) "Home"))
                     shop).2) as (_ & _ & _ & Hps & _).
    by rewrite Hps.
Defined.

(** ** More on the search *)

Lemma filter_none {A} (f : A → bool) l :
  (∀ x, x ∈ l → f x = false) → List.filter f l = [].
Proof.
  induction l as [|x l IH]; intros Hf; [done|]. simpl.
  rewrite (Hf x) by left. apply IH. intros y Hy. apply Hf. by right.
Qed.

(** X25.  A search whose minimum price is above its maximum price finds
    nothing, whatever the catalog: it answers 200 with no product when
    its name and color texts are regular expressions, and 500 when one
    of them is not. *)
Theorem search_empty_price_range `{RegexEngine} (q : SearchQuery) st lo hi :
  q_minPrice q = Some lo →
  q_maxPrice q = Some hi →
  (hi < lo)%Z →
  (invalid_pattern q → search q st = reply 500 "Error searching products")
  ∧ (¬ invalid_pattern q → search q st = send 200 None (ProductList 0 [])).
Proof.
  intros Hlo Hhi Hlt. split; [apply search_refused|].
  intros Hvalid.
  destruct (compile (build_filter q)) as [c|] eqn:Hc;
    [|by apply compile_refused in Hc].
  unfold search, find_products. rewrite Hc. simpl.
  apply compile_inv in Hc as (name_re & color_re & _ & _ & ->).
  rewrite filter_none; [done|].
  intros [id p] _. unfold satisfies, price_test. simpl. rewrite Hlo, Hhi.
  destruct (Z.leb_spec lo (Product.price p));
    destruct (Z.leb_spec (Product.price p) hi);
    rewrite ?andb_false_r, ?andb_false_l; try done; lia.
Qed.

(** Between 30 and 10 there is no price, whatever the name asked for. *)
Lemma search_empty_price_range_witness :
  @search dot_engine (mkQuery (Some "pen") (Some 30%Z) (Some 10%Z) None) shop
  = send 200 None (ProductList 0 [])
  ∧ @search dot_engine (mkQuery (Some "(") (Some 30%Z) (Some 10%Z) None) shop
    = reply 500 "Error searching products".
Proof.
  split.
  - apply (@search_empty_price_range dot_engine
             (mkQuery (Some "pen") (Some 30%Z) (Some 10%Z) None) shop
             30%Z 10%Z eq_refl eq_refl); [lia|].
    intros (p & [Hp|Hp] & _ & Hre); [|done].
    injection Hp as <-. by vm_compute in Hre.
  - apply (@search_empty_price_range dot_engine
             (mkQuery (Some "(") (Some 30%Z) (Some 10%Z) None) shop
             30%Z 10%Z eq_refl eq_refl); [lia|].
    exists "(". split_and!; [by left|reflexivity|reflexivity].
Defined.
